(** * The ThawAccount instruction builder of the token program

    A shallow embedding of [programs/token/ThawAccount.go]: the builder
    record with its fixed account slots and its variable signer list, the
    setters, [Validate], [Build], [ValidateAndBuild] and the account list
    accessors, together with the properties the specification states about
    them.

    Go values are embedded as follows.
    - A [*AccountMeta] is an [option AccountMeta]; [None] is the nil pointer.
    - An [AccountMetaSlice] is a list of such pointers; the nil slice and the
      empty slice are both [[]].
    - A method with a pointer receiver that mutates the builder takes the
      builder and returns the builder after the call.
    - A run-time panic (index out of range, nil dereference) is the [Panic]
      outcome; a Go [error] is an [option string] holding the message. *)

From Stdlib Require Import ZArith Lia DecimalString.
From stdpp Require Import base list strings.

Local Open Scope string_scope.
Local Open Scope nat_scope.
Local Open Scope list_scope.

(** ** Outcomes: a returned value or a run-time panic *)

Inductive panic : Type :=
| IndexOutOfRange (index len : nat)
| SliceBoundsOutOfRange (bound len : nat)
| NilDereference.

Inductive outcome (A : Type) : Type :=
| Ret (a : A)
| Panic (p : panic).

Arguments Ret {A} a.
Arguments Panic {A} p.

#[global] Instance outcome_ret : MRet outcome := λ A a, Ret a.

#[global] Instance outcome_bind : MBind outcome := λ A B f m,
  match m with
  | Ret a => f a
  | Panic p => Panic p
  end.

(** A Go [error]: nil, or a value carrying its message. *)
Definition error : Type := option string.

(** [l[i]] as an r-value. *)
Definition load {A : Type} (l : list A) (i : nat) : outcome A :=
  match l !! i with
  | Some x => Ret x
  | None => Panic (IndexOutOfRange i (length l))
  end.

(** [l[i] = v]. *)
Definition store {A : Type} (l : list A) (i : nat) (v : A) : outcome (list A) :=
  if decide (i < length l) then Ret (<[i:=v]> l)
  else Panic (IndexOutOfRange i (length l)).

(** Reading through a pointer. *)
Definition deref {A : Type} (p : option A) : outcome A :=
  match p with
  | Some x => Ret x
  | None => Panic NilDereference
  end.

(** [%v] of a non-negative [int]. *)
Definition format_int (n : nat) : string :=
  NilZero.string_of_uint (Nat.to_uint n).

(** [sub] occurs in [s]. *)
Fixpoint contains (sub s : string) : bool :=
  String.prefix sub s ||
  match s with
  | EmptyString => false
  | String _ s' => contains sub s'
  end.

(** ** Byte order and the variant type id ([encoding/binary], [ag_binary]) *)

Inductive ByteOrder : Type := LittleEndian | BigEndian.

(** [bo.PutUint32(out, v)]: the four bytes of the 32-bit value [v]. *)
Definition PutUint32 (bo : ByteOrder) (v : Z) : list Z :=
  let b0 := Z.land v 255 in
  let b1 := Z.land (Z.shiftr v 8) 255 in
  let b2 := Z.land (Z.shiftr v 16) 255 in
  let b3 := Z.land (Z.shiftr v 24) 255 in
  match bo with
  | LittleEndian => [b0; b1; b2; b3]
  | BigEndian => [b3; b2; b1; b0]
  end.

(** [binary.LittleEndian.Uint32]. *)
Definition Uint32_le (bs : list Z) : Z :=
  match bs with
  | b0 :: b1 :: b2 :: b3 :: _ =>
      Z.lor b0 (Z.lor (Z.shiftl b1 8) (Z.lor (Z.shiftl b2 16) (Z.shiftl b3 24)))
  | _ => 0
  end.

(** [ag_binary.TypeSize]: a [TypeID] is an 8-byte array. *)
Definition TypeSize : nat := 8.

Definition TypeIDFromUint32 (v : Z) (bo : ByteOrder) : list Z :=
  PutUint32 bo v ++ replicate (TypeSize - 4) 0%Z.

(** The byte buffer behind an [ag_binary.Encoder]. *)
Record Encoder : Type := { Bytes : list Z }.

Definition NewBinEncoder : Encoder := {| Bytes := [] |}.

Definition WriteBytes (encoder : Encoder) (bs : list Z) : Encoder :=
  {| Bytes := Bytes encoder ++ bs |}.

(** Modelled from the spec: the constant [MAX_SIGNERS] is declared outside
    the files at hand; the specification gives the protocol maximum as 11,
    the value the message of [Validate] prints. *)
Definition MAX_SIGNERS : nat := 11.

(** The three fixed account slots, in declared order. *)
Inductive slot : Type := SlotAccount | SlotMint | SlotAuthority.

Definition slot_index (s : slot) : nat :=
  match s with
  | SlotAccount => 0
  | SlotMint => 1
  | SlotAuthority => 2
  end.

Definition slot_name (s : slot) : string :=
  match s with
  | SlotAccount => "Account"
  | SlotMint => "Mint"
  | SlotAuthority => "Authority"
  end.

(** The message [Validate] gives for an unset slot. *)
Definition not_set_error (s : slot) : string :=
  "accounts." +:+ slot_name s +:+ " is not set".

Definition signers_not_set_error : string := "accounts.Signers is not set".

(** [fmt.Errorf("too many signers; got %v, but max is 11", n)]. *)
Definition too_many_signers_error (n : nat) : string :=
  "too many signers; got " +:+ format_int n +:+ ", but max is 11".

(** The message [e] names the slot [s]. *)
Definition names_slot (e : string) (s : slot) : bool :=
  contains (slot_name s) e.

Section ThawAccount.

(** [ag_solanago.PublicKey], an opaque 32-byte address. *)
Variable PublicKey : Type.

(** The value of the constant [Instruction_ThawAccount], a [uint32] declared
    with the program's instruction table. *)
Variable Instruction_ThawAccount : Z.

(** ** Account references *)

(** Modelled from the spec: [ag_solanago.AccountMeta] is declared outside the
    files at hand; an account reference is an address with a writable flag and
    a signer flag. *)
Record AccountMeta : Type := {
  meta_PublicKey : PublicKey;
  IsWritable : bool;
  IsSigner : bool
}.

(** Modelled from the spec: [ag_solanago.Meta] is missing; it makes a
    reference to the address with both flags off. *)
Definition Meta (pubKey : PublicKey) : AccountMeta :=
  {| meta_PublicKey := pubKey; IsWritable := false; IsSigner := false |}.

(** Modelled from the spec: [AccountMeta.WRITE] is missing; it turns the
    writable flag on. *)
Definition WRITE (meta : AccountMeta) : AccountMeta :=
  {| meta_PublicKey := meta_PublicKey meta;
     IsWritable := true;
     IsSigner := IsSigner meta |}.

(** Modelled from the spec: [AccountMeta.SIGNER] is missing; it turns the
    signer flag on. *)
Definition SIGNER (meta : AccountMeta) : AccountMeta :=
  {| meta_PublicKey := meta_PublicKey meta;
     IsWritable := IsWritable meta;
     IsSigner := true |}.

Definition AccountMetaSlice : Type := list (option AccountMeta).

(** Modelled from the spec: [AccountMetaSlice.SplitFrom] is missing; it
    yields the first [index] references and the remaining ones, in order, and
    an index greater than the length is out of bounds. *)
Definition SplitFrom (slice : AccountMetaSlice) (index : nat)
  : outcome (AccountMetaSlice * AccountMetaSlice) :=
  if decide (index ≤ length slice) then Ret (take index slice, drop index slice)
  else Panic (SliceBoundsOutOfRange index (length slice)).

(** ** The builder *)

Record ThawAccount : Type := {
  Accounts : AccountMetaSlice;
  Signers : AccountMetaSlice
}.

Definition SetAccounts (accounts : list (option AccountMeta)) (obj : ThawAccount)
  : outcome (ThawAccount * error) :=
  '(fixed, rest) ← SplitFrom accounts 3;
  Ret ({| Accounts := fixed; Signers := rest |}, None).

Definition GetAccounts (slice : ThawAccount) : list (option AccountMeta) :=
  let accounts := [] in
  let accounts := accounts ++ Accounts slice in
  let accounts := accounts ++ Signers slice in
  accounts.

Definition NewThawAccountInstructionBuilder : ThawAccount :=
  {| Accounts := replicate 3 None; Signers := replicate 0 None |}.

Definition SetAccount (account : PublicKey) (inst : ThawAccount)
  : outcome ThawAccount :=
  accounts ← store (Accounts inst) 0 (Some (WRITE (Meta account)));
  Ret {| Accounts := accounts; Signers := Signers inst |}.

Definition GetAccount (inst : ThawAccount) : outcome (option AccountMeta) :=
  load (Accounts inst) 0.

Definition SetMintAccount (mint : PublicKey) (inst : ThawAccount)
  : outcome ThawAccount :=
  accounts ← store (Accounts inst) 1 (Some (Meta mint));
  Ret {| Accounts := accounts; Signers := Signers inst |}.

Definition GetMintAccount (inst : ThawAccount) : outcome (option AccountMeta) :=
  load (Accounts inst) 1.

Definition SetAuthorityAccount (authority : PublicKey)
    (multisigSigners : list PublicKey) (inst : ThawAccount)
  : outcome ThawAccount :=
  accounts ← store (Accounts inst) 2 (Some (Meta authority));
  accounts ←
    (if length multisigSigners =? 0 then
       p ← load accounts 2;
       meta ← deref p;
       store accounts 2 (Some (SIGNER meta))
     else Ret accounts);
  let signers :=
    fold_left (λ signers signer, signers ++ [Some (SIGNER (Meta signer))])
      multisigSigners (Signers inst) in
  Ret {| Accounts := accounts; Signers := signers |}.

Definition GetAuthorityAccount (inst : ThawAccount)
  : outcome (option AccountMeta) :=
  load (Accounts inst) 2.

(** ** The instruction envelope *)

Record BaseVariant : Type := {
  TypeID : list Z;
  Impl : ThawAccount
}.

(** Modelled from the spec: the [Instruction] struct of the token program is
    declared outside the files at hand; it wraps the tagged variant. *)
Record Instruction : Type := { Variant : BaseVariant }.

Definition Build (inst : ThawAccount) : Instruction :=
  {| Variant :=
       {| Impl := inst;
          TypeID := TypeIDFromUint32 Instruction_ThawAccount LittleEndian |} |}.

Definition Validate (inst : ThawAccount) : outcome error :=
  account ← load (Accounts inst) 0;
  if bool_decide (account = None) then Ret (Some (not_set_error SlotAccount))
  else
    mint ← load (Accounts inst) 1;
    if bool_decide (mint = None) then Ret (Some (not_set_error SlotMint))
    else
      authority ← load (Accounts inst) 2;
      if bool_decide (authority = None)
      then Ret (Some (not_set_error SlotAuthority))
      else
        authority ← load (Accounts inst) 2;
        meta ← deref authority;
        if negb (IsSigner meta) && (length (Signers inst) =? 0)
        then Ret (Some signers_not_set_error)
        else if MAX_SIGNERS <? length (Signers inst)
        then Ret (Some (too_many_signers_error (length (Signers inst))))
        else Ret None.

Definition ValidateAndBuild (inst : ThawAccount)
  : outcome (option Instruction * error) :=
  err ← Validate inst;
  match err with
  | Some e => Ret (None, Some e)
  | None => Ret (Some (Build inst), None)
  end.

Definition MarshalWithEncoder (obj : ThawAccount) (encoder : Encoder)
  : Encoder * error :=
  (encoder, None).

Definition NewThawAccountInstruction (account mint authority : PublicKey)
    (multisigSigners : list PublicKey) : outcome ThawAccount :=
  inst ← SetAccount account NewThawAccountInstructionBuilder;
  inst ← SetMintAccount mint inst;
  SetAuthorityAccount authority multisigSigners inst.

(** Modelled from the spec: [Instruction.Accounts] is missing; the envelope
    carries the full account list of the variant it wraps. *)
Definition Instruction_Accounts (inst : Instruction) : list (option AccountMeta) :=
  GetAccounts (Impl (Variant inst)).

(** Modelled from the spec: [Instruction.Data] is missing; the data is the
    4-byte tag followed by the payload the variant's encoder writes. *)
Definition Instruction_Data (inst : Instruction) : list Z * error :=
  let encoder := WriteBytes NewBinEncoder (take 4 (TypeID (Variant inst))) in
  match MarshalWithEncoder (Impl (Variant inst)) encoder with
  | (encoder, None) => (Bytes encoder, None)
  | (_, Some e) => ([], Some e)
  end.

(** ** Builder states *)

(** The references [SetAuthorityAccount] appends for its extra signers. *)
Definition signer_refs (signers : list PublicKey) : AccountMetaSlice :=
  map (λ signer, Some (SIGNER (Meta signer))) signers.

(** A call of one of the three setters. *)
Inductive call : Type :=
| CallSetAccount (account : PublicKey)
| CallSetMintAccount (mint : PublicKey)
| CallSetAuthorityAccount (authority : PublicKey) (multisigSigners : list PublicKey).

Definition step (c : call) (inst : ThawAccount) : outcome ThawAccount :=
  match c with
  | CallSetAccount account => SetAccount account inst
  | CallSetMintAccount mint => SetMintAccount mint inst
  | CallSetAuthorityAccount authority multisigSigners =>
      SetAuthorityAccount authority multisigSigners inst
  end.

Fixpoint run (calls : list call) (inst : ThawAccount) : outcome ThawAccount :=
  match calls with
  | [] => Ret inst
  | c :: calls => inst ← step c inst; run calls inst
  end.

(** The signer addresses a sequence of calls appends, in call order. *)
Definition appended (calls : list call) : list PublicKey :=
  flat_map (λ c, match c with
                 | CallSetAuthorityAccount _ multisigSigners => multisigSigners
                 | _ => []
                 end) calls.

(** The states a builder can be in: the fresh builder, and what the setters
    and [SetAccounts] make of a builder. *)
Inductive builder_state : ThawAccount → Prop :=
| builder_new : builder_state NewThawAccountInstructionBuilder
| builder_step c inst inst' :
    builder_state inst → step c inst = Ret inst' → builder_state inst'
| builder_SetAccounts accounts inst inst' err :
    builder_state inst → SetAccounts accounts inst = Ret (inst', err) →
    builder_state inst'.

Definition slot_unset (inst : ThawAccount) (s : slot) : Prop :=
  Accounts inst !! slot_index s = Some None.

Definition slot_set (inst : ThawAccount) (s : slot) : Prop :=
  ∃ meta, Accounts inst !! slot_index s = Some (Some meta).

(** ** Further notions for the properties of the builder *)

(** The call returns rather than panics. *)
Definition returns {A : Type} (o : outcome A) : Prop := ∃ a, o = Ret a.

(** What [Validate] reads of a builder: which of the first three slots are
    nil, the signer flag of the authority slot, and the number of signers. *)
Definition validation_view (inst : ThawAccount) : list bool * bool * nat :=
  (map (λ p, bool_decide (p = None)) (take 3 (Accounts inst)),
   match Accounts inst !! 2 with
   | Some (Some meta) => IsSigner meta
   | _ => false
   end,
   length (Signers inst)).

(** The flags the comment on the [Accounts] field documents: the account
    writable, the mint and the authority not writable, every signer entry a
    signer reference. *)
Definition flags_as_documented (inst : ThawAccount) : Prop :=
  (∀ meta, Accounts inst !! 0 = Some (Some meta) →
           IsWritable meta = true ∧ IsSigner meta = false) ∧
  (∀ meta, Accounts inst !! 1 = Some (Some meta) →
           IsWritable meta = false ∧ IsSigner meta = false) ∧
  (∀ meta, Accounts inst !! 2 = Some (Some meta) → IsWritable meta = false) ∧
  Forall (λ p, ∃ meta, p = Some meta ∧
                       IsWritable meta = false ∧ IsSigner meta = true)
    (Signers inst).

(** The [Validate] checks on a builder with at least three slots. *)
Definition validate_checks (a b c : option AccountMeta)
    (signers : AccountMetaSlice) : error :=
  match a, b, c with
  | None, _, _ => Some (not_set_error SlotAccount)
  | Some _, None, _ => Some (not_set_error SlotMint)
  | Some _, Some _, None => Some (not_set_error SlotAuthority)
  | Some _, Some _, Some meta =>
      if negb (IsSigner meta) && (length signers =? 0)
      then Some signers_not_set_error
      else if MAX_SIGNERS <? length signers
      then Some (too_many_signers_error (length signers))
      else None
  end.

(** ** The debugging tree *)

(** A branch of an [ag_treeout] tree: its text and its items, in the order
    they were added. *)
#[warnings="-register-all"]
Inductive Branches : Type := Branch (text : string) (items : list Branches).

Definition Text (branch : Branches) : string :=
  match branch with Branch text _ => text end.

Definition Items (branch : Branches) : list Branches :=
  match branch with Branch _ items => items end.

(** [parent.Child(text).ParentFunc(fn)]: a new branch with the text is added
    last under the parent and [fn] works on that branch. [parent.Child(text)]
    alone is the case where [fn] does nothing. *)
Definition Child (text : string) (parent : Branches)
    (fn : Branches → outcome Branches) : outcome Branches :=
  child ← fn (Branch text []);
  Ret (Branch (Text parent) (Items parent ++ [child])).

(** The constants [ProgramName] and [ProgramID] of the token program and the
    label functions of [ag_format], all declared outside the files at hand. *)
Variable ProgramName : string.
Variable ProgramID : PublicKey.
Variable ag_format_Program : string → PublicKey → string.
Variable ag_format_Instruction : string → string.
Variable ag_format_Meta : string → option AccountMeta → string.

(** The loop over [inst.Signers] with its index. *)
Fixpoint encode_signers (i : nat) (signers : AccountMetaSlice)
    (signersBranch : Branches) : outcome Branches :=
  match signers with
  | [] => Ret signersBranch
  | v :: signers =>
      signersBranch ←
        Child (ag_format_Meta ("signers[" +:+ format_int i +:+ "]") v)
          signersBranch Ret;
      encode_signers (S i) signers signersBranch
  end.

Definition EncodeToTree (inst : ThawAccount) (parent : Branches)
  : outcome Branches :=
  Child (ag_format_Program ProgramName ProgramID) parent (λ programBranch,
    Child (ag_format_Instruction "ThawAccount") programBranch
      (λ instructionBranch,
        instructionBranch ← Child "Params" instructionBranch Ret;
        Child "Accounts" instructionBranch (λ accountsBranch,
          account ← load (Accounts inst) 0;
          accountsBranch ←
            Child (ag_format_Meta "account" account) accountsBranch Ret;
          mint ← load (Accounts inst) 1;
          accountsBranch ←
            Child (ag_format_Meta "mint" mint) accountsBranch Ret;
          authority ← load (Accounts inst) 2;
          accountsBranch ←
            Child (ag_format_Meta "authority" authority) accountsBranch Ret;
          Child ("signers[len=" +:+ format_int (length (Signers inst)) +:+ "]")
            accountsBranch (encode_signers 0 (Signers inst))))).

(** ** The builder in memory *)

(** The slices of a [ThawAccount] are headers over backing arrays, and a copy
    of the struct, such as the one [Build] stores in the instruction, copies
    the headers and shares the arrays. Here the setters are embedded once more,
    over a memory of backing arrays. A cell of an array holds the reference it
    points to: every reference the setters store is freshly made by [Meta] and
    reachable through its cell only. *)

(** A slice header: the address of the backing array, the length and the
    capacity. Every slice of the builder starts at the first cell of its
    array. *)
Record slice : Type := { array : nat; len : nat; cap : nat }.

(** The backing arrays, by address. *)
Local Abbreviation memory := (list (list (option AccountMeta))).

Definition backing (mem : memory) (address : nat) : list (option AccountMeta) :=
  default [] (mem !! address).

(** The elements a slice header gives access to. *)
Definition elements (mem : memory) (s : slice) : list (option AccountMeta) :=
  take (len s) (backing mem (array s)).

(** [make(AccountMetaSlice, n)]: a new array of [n] nil pointers. *)
Definition make (n : nat) (mem : memory) : memory * slice :=
  (mem ++ [replicate n None], {| array := length mem; len := n; cap := n |}).

(** [s[i]] as an r-value. *)
Definition index_load (mem : memory) (s : slice) (i : nat)
  : outcome (option AccountMeta) :=
  if decide (i < len s) then load (backing mem (array s)) i
  else Panic (IndexOutOfRange i (len s)).

(** [s[i] = v]: the cell of the backing array is overwritten. *)
Definition index_store (mem : memory) (s : slice) (i : nat)
    (v : option AccountMeta) : outcome memory :=
  if decide (i < len s) then Ret (alter (<[i:=v]>) (array s) mem)
  else Panic (IndexOutOfRange i (len s)).

(** The capacity the runtime would choose when [append] has to grow a slice
    to a given length; [append_mem] never takes less than that length. *)
Variable growslice : nat → nat.

(** [append(s, v)]: within the capacity the next cell of the same array is
    written; beyond it the elements move to a new, larger array. *)
Definition append_mem (mem : memory) (s : slice) (v : option AccountMeta)
  : memory * slice :=
  if decide (len s < cap s) then
    (alter (<[len s:=v]>) (array s) mem,
     {| array := array s; len := S (len s); cap := cap s |})
  else
    let newcap := Nat.max (S (len s)) (growslice (S (len s))) in
    (mem ++ [elements mem s ++ v :: replicate (newcap - S (len s)) None],
     {| array := length mem; len := S (len s); cap := newcap |}).

(** The [ThawAccount] struct: two slice headers. *)
Record ThawAccount_mem : Type := {
  Accounts_mem : slice;
  Signers_mem : slice
}.

(** The builder a struct stands for in a memory. *)
Definition contents (mem : memory) (inst : ThawAccount_mem) : ThawAccount :=
  {| Accounts := elements mem (Accounts_mem inst);
     Signers := elements mem (Signers_mem inst) |}.

Definition NewThawAccountInstructionBuilder_mem (mem : memory)
  : memory * ThawAccount_mem :=
  let '(mem, accounts) := make 3 mem in
  let '(mem, signers) := make 0 mem in
  (mem, {| Accounts_mem := accounts; Signers_mem := signers |}).

Definition SetAccount_mem (account : PublicKey)
    (state : memory * ThawAccount_mem) : outcome (memory * ThawAccount_mem) :=
  let '(mem, inst) := state in
  mem ← index_store mem (Accounts_mem inst) 0 (Some (WRITE (Meta account)));
  Ret (mem, inst).

Definition SetMintAccount_mem (mint : PublicKey)
    (state : memory * ThawAccount_mem) : outcome (memory * ThawAccount_mem) :=
  let '(mem, inst) := state in
  mem ← index_store mem (Accounts_mem inst) 1 (Some (Meta mint));
  Ret (mem, inst).

Definition SetAuthorityAccount_mem (authority : PublicKey)
    (multisigSigners : list PublicKey) (state : memory * ThawAccount_mem)
  : outcome (memory * ThawAccount_mem) :=
  let '(mem, inst) := state in
  mem ← index_store mem (Accounts_mem inst) 2 (Some (Meta authority));
  mem ←
    (if length multisigSigners =? 0 then
       p ← index_load mem (Accounts_mem inst) 2;
       meta ← deref p;
       index_store mem (Accounts_mem inst) 2 (Some (SIGNER meta))
     else Ret mem);
  let '(mem, signers) :=
    fold_left (λ '(mem, signers) signer,
                 append_mem mem signers (Some (SIGNER (Meta signer))))
      multisigSigners (mem, Signers_mem inst) in
  Ret (mem, {| Accounts_mem := Accounts_mem inst; Signers_mem := signers |}).

(** [Build] has a value receiver and stores it in the instruction: the
    instruction holds a copy of the two headers. *)
Record Instruction_mem : Type := {
  TypeID_mem : list Z;
  Impl_mem : ThawAccount_mem
}.

Definition Build_mem (inst : ThawAccount_mem) : Instruction_mem :=
  {| Impl_mem := inst;
     TypeID_mem := TypeIDFromUint32 Instruction_ThawAccount LittleEndian |}.

Definition step_mem (c : call) (state : memory * ThawAccount_mem)
  : outcome (memory * ThawAccount_mem) :=
  match c with
  | CallSetAccount account => SetAccount_mem account state
  | CallSetMintAccount mint => SetMintAccount_mem mint state
  | CallSetAuthorityAccount authority multisigSigners =>
      SetAuthorityAccount_mem authority multisigSigners state
  end.

Fixpoint run_mem (calls : list call) (state : memory * ThawAccount_mem)
  : outcome (memory * ThawAccount_mem) :=
  match calls with
  | [] => Ret state
  | c :: calls => state ← step_mem c state; run_mem calls state
  end.

(** The slices of a builder made by the constructor: three slots in an array
    of their own, and a signer slice within its capacity and its array. *)
Definition allocated (mem : memory) (inst : ThawAccount_mem) : Prop :=
  array (Accounts_mem inst) < length mem ∧
  len (Accounts_mem inst) = 3 ∧
  3 ≤ length (backing mem (array (Accounts_mem inst))) ∧
  array (Signers_mem inst) < length mem ∧
  array (Signers_mem inst) ≠ array (Accounts_mem inst) ∧
  len (Signers_mem inst) ≤ cap (Signers_mem inst) ∧
  cap (Signers_mem inst) ≤ length (backing mem (array (Signers_mem inst))).

(** A header [s], copied earlier, still gives the elements [E]: its array is
    not the slot array, and where it is the current signer array the current
    length covers it. *)
Definition frozen (mem : memory) (inst : ThawAccount_mem) (s : slice)
    (E : list (option AccountMeta)) : Prop :=
  array s ≠ array (Accounts_mem inst) ∧
  array s < length mem ∧
  elements mem s = E ∧
  len s ≤ length (backing mem (array s)) ∧
  (array s = array (Signers_mem inst) → len s ≤ len (Signers_mem inst)).

End ThawAccount.

Arguments Accounts {PublicKey} _.
Arguments Signers {PublicKey} _.
Arguments meta_PublicKey {PublicKey} _.
Arguments IsWritable {PublicKey} _.
Arguments IsSigner {PublicKey} _.
Arguments NewThawAccountInstructionBuilder {PublicKey}.
Arguments SetAccounts {PublicKey} accounts obj.
Arguments GetAccounts {PublicKey} slice.
Arguments SetAccount {PublicKey} account inst.
Arguments SetMintAccount {PublicKey} mint inst.
Arguments SetAuthorityAccount {PublicKey} authority multisigSigners inst.
Arguments GetAccount {PublicKey} inst.
Arguments GetMintAccount {PublicKey} inst.
Arguments GetAuthorityAccount {PublicKey} inst.
Arguments Validate {PublicKey} inst.
Arguments Build {PublicKey} Instruction_ThawAccount inst.
Arguments ValidateAndBuild {PublicKey} Instruction_ThawAccount inst.
Arguments builder_state {PublicKey} _.
Arguments slot_unset {PublicKey} inst s.
Arguments slot_set {PublicKey} inst s.
Arguments run {PublicKey} calls inst.
Arguments CallSetAccount {PublicKey} account.
Arguments CallSetMintAccount {PublicKey} mint.
Arguments CallSetAuthorityAccount {PublicKey} authority multisigSigners.

Arguments NewThawAccountInstruction {PublicKey} account mint authority multisigSigners.
Arguments Instruction_Accounts {PublicKey} inst.
Arguments Instruction_Data {PublicKey} inst.
Arguments Meta {PublicKey} pubKey.
Arguments WRITE {PublicKey} meta.
Arguments SIGNER {PublicKey} meta.
Arguments SplitFrom {PublicKey} slice index.
Arguments MarshalWithEncoder {PublicKey} obj encoder.
Arguments TypeID {PublicKey} _.
Arguments Impl {PublicKey} _.
Arguments Variant {PublicKey} _.
Arguments signer_refs {PublicKey} signers.
Arguments step {PublicKey} c inst.
Arguments appended {PublicKey} calls.
Arguments builder_new {PublicKey}.
Arguments builder_step {PublicKey} c inst inst' _ _.
Arguments builder_SetAccounts {PublicKey} accounts inst inst' err _ _.
Arguments validation_view {PublicKey} inst.
(** The backing arrays, by address. *)
Abbreviation memory PublicKey :=
  (list (list (option (AccountMeta PublicKey)))).

Arguments backing {PublicKey} mem address.
Arguments elements {PublicKey} mem s.
Arguments make {PublicKey} n mem.
Arguments index_load {PublicKey} mem s i.
Arguments index_store {PublicKey} mem s i v.
Arguments append_mem {PublicKey} growslice mem s v.
Arguments contents {PublicKey} mem inst.
Arguments NewThawAccountInstructionBuilder_mem {PublicKey} mem.
Arguments SetAccount_mem {PublicKey} account state.
Arguments SetMintAccount_mem {PublicKey} mint state.
Arguments SetAuthorityAccount_mem {PublicKey} growslice authority
  multisigSigners state.
Arguments step_mem {PublicKey} growslice c state.
Arguments run_mem {PublicKey} growslice calls state.
Arguments allocated {PublicKey} mem inst.
Arguments frozen {PublicKey} mem inst s E.
Arguments validate_checks {PublicKey} a b c signers.
Arguments flags_as_documented {PublicKey} inst.
Arguments encode_signers {PublicKey} ag_format_Meta i signers signersBranch.
Arguments EncodeToTree {PublicKey} ProgramName ProgramID ag_format_Program
  ag_format_Instruction ag_format_Meta inst parent.

(** ** Concrete builders *)

(** A reference with the given address and flags. *)
Definition ref (key : string) (writable signer : bool)
  : option (AccountMeta string) :=
  Some {| meta_PublicKey := key; IsWritable := writable; IsSigner := signer |}.

(** The fresh builder after [SetAccount "A"]. *)
Definition only_account : ThawAccount string :=
  {| Accounts := [ref "A" true false; None; None]; Signers := [] |}.

(** All slots set, the authority not a signer, and [n] multisig signers. *)
Definition with_signers (n : nat) : ThawAccount string :=
  {| Accounts := [ref "A" true false; ref "M" false false; ref "Au" false false];
     Signers := replicate n (ref "S" false true) |}.

(** A [ThawAccount] that was not made by the constructor: no slot allocated. *)
Definition zero_value : ThawAccount string :=
  {| Accounts := []; Signers := [] |}.

(** All slots set, with flags and a nil signer entry no setter would write. *)
Definition unchecked_builder : ThawAccount string :=
  {| Accounts := [ref "X" false true; ref "Y" true true; ref "Z" true false];
     Signers := [None] |}.

(** A label for a reference: its name and, when set, its address. *)
Definition label_meta (name : string) (meta : option (AccountMeta string))
  : string :=
  match meta with
  | Some meta => name +:+ ": " +:+ meta_PublicKey meta
  | None => name +:+ ": nil"
  end.

Section Properties.

(** The properties hold for every address type and every value of the
    ThawAccount discriminant. *)
Variable PublicKey : Type.
Variable Instruction_ThawAccount : Z.

(** ** Auxiliary facts *)

Lemma store_in_range {A : Type} (l : list A) (i : nat) (v : A) :
  i < length l → store l i v = Ret (<[i:=v]> l).
Proof. intros Hi. unfold store. by rewrite decide_True. Qed.

Lemma load_in_range {A : Type} (l : list A) (i : nat) (x : A) :
  l !! i = Some x → load l i = Ret x.
Proof. intros Hx. unfold load. by rewrite Hx. Qed.

Lemma three_slots {A : Type} (l : list A) :
  length l = 3 → ∃ a b c, l = [a; b; c].
Proof.
  destruct l as [|a [|b [|c [|d l]]]]; simpl; intros Hlen; try lia.
  by exists a, b, c.
Qed.

Lemma append_loop (signers : list PublicKey)
    (init : AccountMetaSlice PublicKey) :
  fold_left (λ signers signer, signers ++ [Some (SIGNER (Meta signer))])
    signers init = init ++ signer_refs signers.
Proof.
  revert init. induction signers as [|signer signers IH]; intros init; simpl.
  - by rewrite app_nil_r.
  - rewrite IH. by rewrite <- app_assoc.
Qed.

Lemma signer_refs_app (xs ys : list PublicKey) :
  signer_refs (xs ++ ys) = signer_refs xs ++ signer_refs ys.
Proof. unfold signer_refs. apply map_app. Qed.

Lemma signer_refs_length (xs : list PublicKey) :
  length (signer_refs xs) = length xs.
Proof. unfold signer_refs. apply length_map. Qed.

Lemma SetAccount_slots (account : PublicKey)
    (a b c : option (AccountMeta PublicKey))
    (signers : AccountMetaSlice PublicKey) :
  SetAccount account {| Accounts := [a; b; c]; Signers := signers |} =
  Ret {| Accounts := [Some (WRITE (Meta account)); b; c]; Signers := signers |}.
Proof. reflexivity. Qed.

Lemma SetMintAccount_slots (mint : PublicKey)
    (a b c : option (AccountMeta PublicKey))
    (signers : AccountMetaSlice PublicKey) :
  SetMintAccount mint {| Accounts := [a; b; c]; Signers := signers |} =
  Ret {| Accounts := [a; Some (Meta mint); c]; Signers := signers |}.
Proof. reflexivity. Qed.

Lemma SetAuthorityAccount_slots (authority : PublicKey)
    (multisigSigners : list PublicKey) (a b c : option (AccountMeta PublicKey))
    (signers : AccountMetaSlice PublicKey) :
  SetAuthorityAccount authority multisigSigners
    {| Accounts := [a; b; c]; Signers := signers |} =
  Ret {| Accounts :=
           [a; b;
            Some {| meta_PublicKey := authority;
                    IsWritable := false;
                    IsSigner := bool_decide (multisigSigners = []) |}];
         Signers := signers ++ signer_refs multisigSigners |}.
Proof.
  unfold SetAuthorityAccount. rewrite append_loop.
  destruct multisigSigners as [|s ss]; reflexivity.
Qed.

Lemma builder_state_slots (inst : ThawAccount PublicKey) :
  builder_state inst → length (Accounts inst) = 3.
Proof.
  induction 1 as [|c inst inst' _ IH Hstep|accounts inst inst' err _ _ Hset].
  - reflexivity.
  - destruct inst as [accs signers]; simpl in IH.
    destruct (three_slots _ IH) as (a & b & c0 & ->).
    destruct c as [account|mint|authority multisigSigners]; simpl in Hstep.
    + rewrite SetAccount_slots in Hstep. by inversion Hstep.
    + rewrite SetMintAccount_slots in Hstep. by inversion Hstep.
    + rewrite SetAuthorityAccount_slots in Hstep. by inversion Hstep.
  - unfold SetAccounts, SplitFrom in Hset.
    destruct (decide (3 ≤ length accounts)) as [Hlen|Hlen]; simpl in Hset;
      [|discriminate].
    inversion Hset; subst; simpl. rewrite length_take. lia.
Qed.

Lemma slots_builder_state (inst : ThawAccount PublicKey) :
  length (Accounts inst) = 3 → builder_state inst.
Proof.
  intros Hlen.
  apply (builder_SetAccounts (Accounts inst ++ Signers inst)
           NewThawAccountInstructionBuilder inst None); [constructor|].
  unfold SetAccounts, SplitFrom.
  rewrite decide_True by (rewrite length_app; lia). simpl.
  rewrite take_app_length' by done. rewrite drop_app_length' by done.
  by destruct inst.
Qed.

Lemma builder_state_inv (inst : ThawAccount PublicKey) :
  builder_state inst →
  ∃ a b c signers, inst = {| Accounts := [a; b; c]; Signers := signers |}.
Proof.
  intros Hb. apply builder_state_slots in Hb.
  destruct inst as [accs signers]; simpl in Hb.
  destruct (three_slots _ Hb) as (a & b & c & ->). by exists a, b, c, signers.
Qed.

Lemma step_slots (c : call PublicKey)
    (a b c0 : option (AccountMeta PublicKey))
    (signers : AccountMetaSlice PublicKey) :
  ∃ a' b' c', step c {| Accounts := [a; b; c0]; Signers := signers |} =
    Ret {| Accounts := [a'; b'; c'];
           Signers := signers ++ signer_refs (appended [c]) |}.
Proof.
  destruct c as [account|mint|authority multisigSigners]; simpl.
  - rewrite SetAccount_slots, app_nil_r. eauto.
  - rewrite SetMintAccount_slots, app_nil_r. eauto.
  - rewrite SetAuthorityAccount_slots, !app_nil_r. eauto.
Qed.

Lemma run_slots (calls : list (call PublicKey))
    (a b c : option (AccountMeta PublicKey))
    (signers : AccountMetaSlice PublicKey) :
  ∃ a' b' c', run calls {| Accounts := [a; b; c]; Signers := signers |} =
    Ret {| Accounts := [a'; b'; c'];
           Signers := signers ++ signer_refs (appended calls) |}.
Proof.
  revert a b c signers.
  induction calls as [|c1 calls IH]; intros a b c signers.
  - exists a, b, c. simpl. by rewrite app_nil_r.
  - destruct (step_slots c1 a b c signers) as (a1 & b1 & c1' & Hstep).
    destruct (IH a1 b1 c1' (signers ++ signer_refs (appended [c1])))
      as (a2 & b2 & c2 & Hrun).
    exists a2, b2, c2. cbn [run]. rewrite Hstep. cbn [mbind outcome_bind].
    rewrite Hrun. do 2 f_equal.
    rewrite <- app_assoc, <- signer_refs_app. do 2 f_equal.
    unfold appended. simpl. by rewrite app_nil_r.
Qed.

(** ** The account list *)

(** C1. In every builder state, and after any further sequence of setter
    calls, the builder holds exactly three fixed slots; [GetAccounts] returns
    the account, mint and authority slots in that order followed by the signer
    list, which is the earlier signer list followed by the signers the calls
    appended, in call and argument order; and the returned list has length 3
    plus the number of signer entries. *)
Theorem GetAccounts_fixed_then_appended (inst0 : ThawAccount PublicKey)
    (calls : list (call PublicKey)) :
  builder_state inst0 →
  ∃ inst account mint authority,
    run calls inst0 = Ret inst ∧
    builder_state inst ∧
    GetAccount inst = Ret account ∧
    GetMintAccount inst = Ret mint ∧
    GetAuthorityAccount inst = Ret authority ∧
    Signers inst = Signers inst0 ++ signer_refs (appended calls) ∧
    GetAccounts inst = [account; mint; authority] ++ Signers inst ∧
    length (GetAccounts inst) = 3 + length (Signers inst).
Proof.
  intros Hb.
  destruct (builder_state_inv _ Hb) as (a & b & c & signers & ->).
  destruct (run_slots calls a b c signers) as (a' & b' & c' & Hrun).
  eexists _, a', b', c'. split; [exact Hrun|].
  split; [by apply slots_builder_state|].
  repeat split; reflexivity.
Qed.

(** C2. The builder made by [SetAccount A], [SetMintAccount M] and
    [SetAuthorityAccount Au] with no multisig signer validates; its account
    list is [A] writable and not signer, [M] neither, [Au] signer and not
    writable; the payload encoder writes nothing, and the data of the built
    instruction is the four little-endian bytes of the ThawAccount discriminant
    with no payload byte after them. *)
Theorem ThawAccount_single_authority_scenario (A M Au : PublicKey) :
  ∃ inst,
    (inst ← SetAccount A NewThawAccountInstructionBuilder;
     inst ← SetMintAccount M inst;
     SetAuthorityAccount Au [] inst) = Ret inst ∧
    Validate inst = Ret None ∧
    GetAccounts inst =
      [Some {| meta_PublicKey := A; IsWritable := true; IsSigner := false |};
       Some {| meta_PublicKey := M; IsWritable := false; IsSigner := false |};
       Some {| meta_PublicKey := Au; IsWritable := false; IsSigner := true |}] ∧
    Instruction_Accounts (Build Instruction_ThawAccount inst) = GetAccounts inst ∧
    (∀ encoder, MarshalWithEncoder inst encoder = (encoder, None)) ∧
    Instruction_Data (Build Instruction_ThawAccount inst) =
      (PutUint32 LittleEndian Instruction_ThawAccount ++ [], None) ∧
    PutUint32 LittleEndian Instruction_ThawAccount =
      [Z.land Instruction_ThawAccount 255;
       Z.land (Z.shiftr Instruction_ThawAccount 8) 255;
       Z.land (Z.shiftr Instruction_ThawAccount 16) 255;
       Z.land (Z.shiftr Instruction_ThawAccount 24) 255] ∧
    length (fst (Instruction_Data (Build Instruction_ThawAccount inst))) = 4.
Proof.
  eexists. split; [reflexivity|]. repeat split.
Qed.

(** ** Validation *)

Lemma Validate_slots (a b c : option (AccountMeta PublicKey))
    (signers : AccountMetaSlice PublicKey) :
  Validate {| Accounts := [a; b; c]; Signers := signers |} =
  Ret match a, b, c with
      | None, _, _ => Some (not_set_error SlotAccount)
      | Some _, None, _ => Some (not_set_error SlotMint)
      | Some _, Some _, None => Some (not_set_error SlotAuthority)
      | Some _, Some _, Some meta =>
          if negb (IsSigner meta) && (length signers =? 0)
          then Some signers_not_set_error
          else if MAX_SIGNERS <? length signers
          then Some (too_many_signers_error (length signers))
          else None
      end.
Proof.
  destruct a as [ma|], b as [mb|], c as [mc|]; try reflexivity.
  unfold Validate. cbn [load Accounts Signers lookup list_lookup mbind outcome_bind].
  rewrite !bool_decide_eq_false_2 by done. cbn [deref mbind outcome_bind].
  by destruct (negb (IsSigner mc) && (length signers =? 0)),
       (MAX_SIGNERS <? length signers).
Qed.

Lemma not_set_error_names (s s' : slot) :
  names_slot (not_set_error s) s' = true ↔ s' = s.
Proof.
  split.
  - destruct s, s'; vm_compute; intros H; try reflexivity; discriminate.
  - intros ->. by destruct s.
Qed.

Lemma too_many_signers_prefix (n : nat) :
  String.prefix "too many signers" (too_many_signers_error n) = true.
Proof. reflexivity. Qed.

(** Unfold the slot predicates on a builder whose slots are known. *)
Ltac slot_facts :=
  unfold slot_unset, slot_set, slot_index in *; simpl in *;
  repeat match goal with
         | H : ∃ _, Some _ = Some _ |- _ => destruct H as [? H]
         | H : Some _ = Some _ |- _ => inversion H; clear H; subst
         end.

(** C3 (amended). In a builder state, a fixed slot that is unset while every
    slot before it is set makes [Validate] return the error naming that slot;
    so whenever some fixed slot is unset, [Validate] returns the error naming
    the first unset slot in the order account, mint, authority. When the three
    slots are set, the authority is not a signer and the signer list is empty,
    [Validate] returns the missing-signer error. *)
Theorem Validate_missing_account_or_signer (inst : ThawAccount PublicKey) :
  builder_state inst →
  (∀ s, slot_unset inst s →
        (∀ s', slot_index s' < slot_index s → slot_set inst s') →
        Validate inst = Ret (Some (not_set_error s)) ∧
        names_slot (not_set_error s) s = true) ∧
  (∀ s, slot_unset inst s →
        ∃ s', slot_unset inst s' ∧ slot_index s' ≤ slot_index s ∧
              (∀ s'', slot_index s'' < slot_index s' → slot_set inst s'') ∧
              Validate inst = Ret (Some (not_set_error s'))) ∧
  ((∀ s, slot_set inst s) →
   (∀ meta, GetAuthorityAccount inst = Ret (Some meta) → IsSigner meta = false) →
   Signers inst = [] →
   Validate inst = Ret (Some signers_not_set_error)).
Proof.
  intros Hb.
  destruct (builder_state_inv _ Hb) as (a & b & c & signers & ->).
  rewrite Validate_slots. split; [|split].
  - intros s Hs Hbefore. split; [|by apply not_set_error_names].
    destruct s.
    + slot_facts. reflexivity.
    + pose proof (Hbefore SlotAccount) as H0. slot_facts.
      destruct H0 as [m0 H0]; [lia|]. slot_facts. reflexivity.
    + pose proof (Hbefore SlotAccount) as H0.
      pose proof (Hbefore SlotMint) as H1. slot_facts.
      destruct H0 as [m0 H0]; [lia|]. destruct H1 as [m1 H1]; [lia|].
      slot_facts. reflexivity.
  - intros s Hs.
    destruct a as [ma|].
    2:{ exists SlotAccount. slot_facts. repeat split; [lia|intros s'' ?; lia]. }
    destruct b as [mb|].
    2:{ exists SlotMint. destruct s; slot_facts; repeat split; try lia;
        intros [] ?; slot_facts; try lia; eauto. }
    destruct c as [mc|].
    2:{ exists SlotAuthority. destruct s; slot_facts; repeat split; try lia;
        intros [] ?; slot_facts; try lia; eauto. }
    destruct s; slot_facts.
  - intros Hset Hns Hsig. simpl in Hsig. subst signers.
    destruct (Hset SlotAccount) as [ma Ha].
    destruct (Hset SlotMint) as [mb Hm].
    destruct (Hset SlotAuthority) as [mc Hc]. slot_facts.
    rewrite (Hns mc) by reflexivity. reflexivity.
Qed.

(** C4. In a builder state with the three fixed slots set, [Validate] returns
    the too-many-signers error when the signer list holds more than
    [MAX_SIGNERS] = 11 entries, and returns no error at all when it holds
    exactly 11; with at most 11 entries it never returns that error. *)
Theorem Validate_too_many_signers (inst : ThawAccount PublicKey) :
  builder_state inst →
  (∀ s, slot_set inst s) →
  MAX_SIGNERS = 11 ∧
  (MAX_SIGNERS < length (Signers inst) →
   Validate inst = Ret (Some (too_many_signers_error (length (Signers inst)))) ∧
   String.prefix "too many signers"
     (too_many_signers_error (length (Signers inst))) = true) ∧
  (length (Signers inst) = MAX_SIGNERS → Validate inst = Ret None) ∧
  (length (Signers inst) ≤ MAX_SIGNERS →
   ∀ n, Validate inst ≠ Ret (Some (too_many_signers_error n))).
Proof.
  intros Hb Hset.
  destruct (builder_state_inv _ Hb) as (a & b & c & signers & ->).
  destruct (Hset SlotAccount) as [ma Ha].
  destruct (Hset SlotMint) as [mb Hm].
  destruct (Hset SlotAuthority) as [mc Hc]. slot_facts.
  rewrite Validate_slots. unfold MAX_SIGNERS.
  split; [reflexivity|]. split; [|split].
  - intros Hlen. split; [|reflexivity].
    destruct (Nat.eqb_spec (length signers) 0) as [H0|H0]; [lia|].
    rewrite andb_false_r.
    destruct (Nat.ltb_spec 11 (length signers)); [reflexivity|lia].
  - intros ->. simpl. by rewrite andb_false_r.
  - intros Hlen n.
    destruct (negb (IsSigner mc) && (length signers =? 0)).
    + intros Heq. inversion Heq.
    + destruct (Nat.ltb_spec 11 (length signers)); [lia|].
      intros Heq. inversion Heq.
Qed.

(** C7 (amended). When more than one fixed slot of a builder is unset,
    [Validate] returns the error of the first unset slot only: the message
    names that slot and no other, so a later unset slot goes unreported. *)
Theorem Validate_reports_first_unset_slot_only (inst : ThawAccount PublicKey) (s1 s2 : slot) :
  builder_state inst →
  slot_unset inst s1 → slot_unset inst s2 → slot_index s1 < slot_index s2 →
  ∃ s, slot_unset inst s ∧
       (∀ s', slot_unset inst s' → slot_index s ≤ slot_index s') ∧
       Validate inst = Ret (Some (not_set_error s)) ∧
       (∀ s', names_slot (not_set_error s) s' = true ↔ s' = s) ∧
       slot_unset inst s2 ∧ names_slot (not_set_error s) s2 = false.
Proof.
  intros Hb H1 H2 Hlt.
  destruct (builder_state_inv _ Hb) as (a & b & c & signers & ->).
  rewrite Validate_slots.
  assert (Hpick : ∀ s, slot_unset {| Accounts := [a; b; c]; Signers := signers |} s →
            (∀ s', slot_unset {| Accounts := [a; b; c]; Signers := signers |} s' →
                   slot_index s ≤ slot_index s') →
            match a, b, c with
            | None, _, _ => Some (not_set_error SlotAccount)
            | Some _, None, _ => Some (not_set_error SlotMint)
            | Some _, Some _, None => Some (not_set_error SlotAuthority)
            | Some _, Some _, Some meta =>
                if negb (IsSigner meta) && (length signers =? 0)
                then Some signers_not_set_error
                else if MAX_SIGNERS <? length signers
                then Some (too_many_signers_error (length signers))
                else None
            end = Some (not_set_error s)).
  { intros s Hs Hmin.
    destruct a as [ma|].
    2:{ destruct s; [reflexivity| |];
        specialize (Hmin SlotAccount); slot_facts; specialize (Hmin eq_refl); lia. }
    destruct b as [mb|].
    2:{ destruct s; [slot_facts|reflexivity|];
        specialize (Hmin SlotMint); slot_facts; specialize (Hmin eq_refl); lia. }
    destruct s; slot_facts. reflexivity. }
  assert (Hfirst : ∃ s, slot_unset {| Accounts := [a; b; c]; Signers := signers |} s ∧
            slot_index s ≤ slot_index s1 ∧
            ∀ s', slot_unset {| Accounts := [a; b; c]; Signers := signers |} s' →
                  slot_index s ≤ slot_index s').
  { destruct a as [ma|].
    2:{ exists SlotAccount. slot_facts. repeat split; [lia|intros; lia]. }
    destruct b as [mb|].
    2:{ exists SlotMint. destruct s1; slot_facts; repeat split; try lia;
        intros [] ?; slot_facts; lia. }
    destruct s1, s2; slot_facts; lia. }
  destruct Hfirst as (s & Hs & Hle & Hmin).
  exists s. split; [exact Hs|]. split; [exact Hmin|].
  split; [f_equal; by apply Hpick|].
  split; [apply not_set_error_names|]. split; [exact H2|].
  destruct (names_slot (not_set_error s) s2) eqn:Hn; [|reflexivity].
  apply not_set_error_names in Hn. subst s2. lia.
Qed.

(** ** The setters *)

(** C5 (amended). In a builder state [SetAuthorityAccount Au S1 .. Sn]
    returns a builder state whose account and mint slots are unchanged and
    whose authority slot is [Au], not writable, and signer exactly when no
    extra address was given; each [Si] is appended to the signer list as a
    signer, non-writable reference, in argument order, after the entries
    already there. The account list therefore ends with the new entries and
    has length 3 plus the earlier signer count plus [n]: length 5 for [n = 2]
    when the signer list was empty before the call. *)
Theorem SetAuthorityAccount_marks_and_appends (inst : ThawAccount PublicKey)
    (Au : PublicKey) (multisigSigners : list PublicKey) :
  builder_state inst →
  ∃ inst',
    SetAuthorityAccount Au multisigSigners inst = Ret inst' ∧
    builder_state inst' ∧
    GetAccount inst' = GetAccount inst ∧
    GetMintAccount inst' = GetMintAccount inst ∧
    (multisigSigners ≠ [] →
     GetAuthorityAccount inst' =
       Ret (Some {| meta_PublicKey := Au; IsWritable := false; IsSigner := false |})) ∧
    (multisigSigners = [] →
     GetAuthorityAccount inst' =
       Ret (Some {| meta_PublicKey := Au; IsWritable := false; IsSigner := true |})) ∧
    Signers inst' =
      Signers inst ++
      map (λ S, Some {| meta_PublicKey := S; IsWritable := false; IsSigner := true |})
        multisigSigners ∧
    GetAccounts inst' = Accounts inst' ++ Signers inst' ∧
    length (Accounts inst') = 3 ∧
    length (GetAccounts inst') =
      3 + length (Signers inst) + length multisigSigners ∧
    (Signers inst = [] → length multisigSigners = 2 →
     length (GetAccounts inst') = 5).
Proof.
  intros Hb.
  destruct (builder_state_inv _ Hb) as (a & b & c & signers & ->).
  eexists. split; [apply SetAuthorityAccount_slots|].
  split; [by apply slots_builder_state|].
  do 2 (split; [reflexivity|]).
  split; [intros Hne; cbn; by rewrite bool_decide_eq_false_2|].
  split; [intros ->; reflexivity|].
  split; [reflexivity|]. split; [reflexivity|]. split; [reflexivity|].
  assert (Hlen : length (GetAccounts
            {| Accounts :=
                 [a; b;
                  Some {| meta_PublicKey := Au;
                          IsWritable := false;
                          IsSigner := bool_decide (multisigSigners = []) |}];
               Signers := signers ++ signer_refs multisigSigners |}) =
          3 + length signers + length multisigSigners).
  { unfold GetAccounts. cbn [Accounts Signers].
    rewrite !length_app, signer_refs_length. simpl. lia. }
  split; [exact Hlen|].
  cbn [Signers]. intros -> H2. rewrite Hlen, H2. reflexivity.
Qed.

(** C6 (amended). In a builder state [SetAccount] and [SetMintAccount] each
    overwrite their one slot, leave the rest of the builder as it was, and give
    the same builder when called again with the same argument; so does
    [SetAuthorityAccount] when called with no multisig signer. Called with
    multisig signers it overwrites the authority slot and also appends to the
    signer list, and a second call with the same arguments appends the same
    signers once more. *)
Theorem setters_overwrite_and_repeat (inst : ThawAccount PublicKey) :
  builder_state inst →
  (∀ account, ∃ inst1,
     SetAccount account inst = Ret inst1 ∧
     Accounts inst1 = <[0:=Some (WRITE (Meta account))]> (Accounts inst) ∧
     Signers inst1 = Signers inst ∧
     SetAccount account inst1 = Ret inst1) ∧
  (∀ mint, ∃ inst1,
     SetMintAccount mint inst = Ret inst1 ∧
     Accounts inst1 = <[1:=Some (Meta mint)]> (Accounts inst) ∧
     Signers inst1 = Signers inst ∧
     SetMintAccount mint inst1 = Ret inst1) ∧
  (∀ authority, ∃ inst1,
     SetAuthorityAccount authority [] inst = Ret inst1 ∧
     Accounts inst1 = <[2:=Some (SIGNER (Meta authority))]> (Accounts inst) ∧
     Signers inst1 = Signers inst ∧
     SetAuthorityAccount authority [] inst1 = Ret inst1) ∧
  (∀ authority multisigSigners, multisigSigners ≠ [] → ∃ inst1 inst2,
     SetAuthorityAccount authority multisigSigners inst = Ret inst1 ∧
     Accounts inst1 = <[2:=Some (Meta authority)]> (Accounts inst) ∧
     Signers inst1 = Signers inst ++ signer_refs multisigSigners ∧
     SetAuthorityAccount authority multisigSigners inst1 = Ret inst2 ∧
     Accounts inst2 = Accounts inst1 ∧
     Signers inst2 = Signers inst1 ++ signer_refs multisigSigners ∧
     inst2 ≠ inst1).
Proof.
  intros Hb.
  destruct (builder_state_inv _ Hb) as (a & b & c & signers & ->).
  split; [|split; [|split]].
  - intros account. eexists. split; [apply SetAccount_slots|].
    repeat split.
  - intros mint. eexists. split; [apply SetMintAccount_slots|].
    repeat split.
  - intros authority. eexists. split; [apply SetAuthorityAccount_slots|].
    rewrite SetAuthorityAccount_slots. cbn. rewrite !app_nil_r.
    repeat split.
  - intros authority multisigSigners Hne. eexists _, _.
    split; [apply SetAuthorityAccount_slots|].
    rewrite SetAuthorityAccount_slots. cbn [Accounts Signers].
    rewrite bool_decide_eq_false_2 by done.
    split; [reflexivity|]. split; [reflexivity|]. split; [reflexivity|].
    split; [reflexivity|]. split; [reflexivity|].
    intros Heq. inversion Heq as [Hsig].
    apply (f_equal length) in Hsig. rewrite !length_app, signer_refs_length in Hsig.
    destruct multisigSigners; [done|]. simpl in Hsig. lia.
Qed.

(** ** Building *)

(** C8. In a builder state [Validate] returns; when it returns an error,
    [ValidateAndBuild] returns that error with a nil instruction, and only
    then; when it returns nil, [ValidateAndBuild] returns the instruction of
    [Build] with a nil error. That instruction carries the ThawAccount
    discriminant as its type id, the builder as its variant, and as accounts
    the fixed slots followed by the signer list. *)
Theorem ValidateAndBuild_validates_then_builds (inst : ThawAccount PublicKey) :
  builder_state inst →
  (∃ err, Validate inst = Ret err) ∧
  (∀ e, Validate inst = Ret (Some e) ↔
        ValidateAndBuild Instruction_ThawAccount inst = Ret (None, Some e)) ∧
  (Validate inst = Ret None ↔
   ValidateAndBuild Instruction_ThawAccount inst =
     Ret (Some (Build Instruction_ThawAccount inst), None)) ∧
  (∀ instruction err,
     ValidateAndBuild Instruction_ThawAccount inst = Ret (instruction, err) →
     (instruction = None ∧ err ≠ None ∧ Validate inst = Ret err) ∨
     (instruction = Some (Build Instruction_ThawAccount inst) ∧ err = None ∧
      Validate inst = Ret None)) ∧
  TypeID (Variant (Build Instruction_ThawAccount inst)) =
    TypeIDFromUint32 Instruction_ThawAccount LittleEndian ∧
  Impl (Variant (Build Instruction_ThawAccount inst)) = inst ∧
  Instruction_Accounts (Build Instruction_ThawAccount inst) =
    Accounts inst ++ Signers inst.
Proof.
  intros Hb.
  destruct (builder_state_inv _ Hb) as (a & b & c & signers & ->).
  unfold ValidateAndBuild. rewrite Validate_slots.
  set (v := match a, b, c with
            | None, _, _ => Some (not_set_error SlotAccount)
            | Some _, None, _ => Some (not_set_error SlotMint)
            | Some _, Some _, None => Some (not_set_error SlotAuthority)
            | Some _, Some _, Some meta =>
                if negb (IsSigner meta) && (length signers =? 0)
                then Some signers_not_set_error
                else if MAX_SIGNERS <? length signers
                then Some (too_many_signers_error (length signers))
                else None
            end).
  clearbody v. cbn [mbind outcome_bind].
  split; [by exists v|].
  split; [|split; [|split]].
  - intros e. destruct v as [e'|]; split; intros H; inversion H; reflexivity.
  - destruct v as [e'|]; split; intros H; inversion H; reflexivity.
  - intros instruction err H. destruct v as [e'|]; inversion H; subst.
    + left. done.
    + right. done.
  - repeat split.
Qed.

(** C9. For every list of at least three account references, [SetAccounts]
    returns without error and leaves the first three references, in order, in
    the fixed slots and the remaining references, in order, in the signer
    list; [GetAccounts] then returns the list that was given. *)
Theorem SetAccounts_GetAccounts_roundtrip (accounts : list (option (AccountMeta PublicKey)))
    (obj : ThawAccount PublicKey) :
  3 ≤ length accounts →
  ∃ obj',
    SetAccounts accounts obj = Ret (obj', None) ∧
    Accounts obj' = take 3 accounts ∧
    Signers obj' = drop 3 accounts ∧
    length (Accounts obj') = 3 ∧
    length (Signers obj') = length accounts - 3 ∧
    (∀ i, i < 3 → Accounts obj' !! i = accounts !! i) ∧
    (∀ j, Signers obj' !! j = accounts !! (3 + j)) ∧
    GetAccounts obj' = accounts.
Proof.
  intros Hlen. eexists. unfold SetAccounts, SplitFrom.
  rewrite decide_True by done. cbn [mbind outcome_bind].
  split; [reflexivity|]. cbn [Accounts Signers].
  split; [reflexivity|]. split; [reflexivity|].
  split; [rewrite length_take; lia|].
  split; [by rewrite length_drop|].
  split; [intros i Hi; by apply lookup_take_lt|].
  split; [intros j; apply lookup_drop|].
  unfold GetAccounts. cbn [Accounts Signers]. rewrite app_nil_l.
  apply take_drop.
Qed.

(** C10. [NewThawAccountInstruction a m au s] is the fresh builder after
    [SetAccount a], [SetMintAccount m] and [SetAuthorityAccount au s], in that
    order; the chain never panics, and the builder it gives holds [a] writable,
    [m], and [au] marked signer exactly when [s] is empty, with [s] as signer
    references in the signer list. *)
Theorem NewThawAccountInstruction_is_setter_chain (a m au : PublicKey)
    (s : list PublicKey) :
  ∃ inst1 inst2 inst3,
    SetAccount a NewThawAccountInstructionBuilder = Ret inst1 ∧
    SetMintAccount m inst1 = Ret inst2 ∧
    SetAuthorityAccount au s inst2 = Ret inst3 ∧
    NewThawAccountInstruction a m au s = Ret inst3 ∧
    NewThawAccountInstruction a m au s =
      run [CallSetAccount a; CallSetMintAccount m; CallSetAuthorityAccount au s]
        NewThawAccountInstructionBuilder ∧
    inst3 =
      {| Accounts :=
           [Some {| meta_PublicKey := a; IsWritable := true; IsSigner := false |};
            Some {| meta_PublicKey := m; IsWritable := false; IsSigner := false |};
            Some {| meta_PublicKey := au;
                    IsWritable := false;
                    IsSigner := bool_decide (s = []) |}];
         Signers := signer_refs s |}.
Proof.
  unfold NewThawAccountInstruction. cbn [run step].
  change (@NewThawAccountInstructionBuilder PublicKey)
    with {| Accounts := [@None (AccountMeta PublicKey); None; None];
            Signers := [] |}.
  rewrite SetAccount_slots. cbn [mbind outcome_bind].
  rewrite SetMintAccount_slots. cbn [mbind outcome_bind].
  rewrite SetAuthorityAccount_slots. cbn [mbind outcome_bind].
  exists {| Accounts := [Some (WRITE (Meta a)); None; None]; Signers := [] |},
    {| Accounts := [Some (WRITE (Meta a)); Some (Meta m); None]; Signers := [] |}.
  eexists. split; [reflexivity|]. split; [reflexivity|].
  split; [apply SetAuthorityAccount_slots|]. repeat split.
Qed.

End Properties.

(** ** The discriminant bytes are little-endian *)

Lemma byte_bit (v k n : Z) :
  (0 ≤ k)%Z → (0 ≤ n)%Z →
  Z.testbit (Z.shiftl (Z.land (Z.shiftr v k) 255) k) n =
  Z.testbit v n && bool_decide (k ≤ n < k + 8)%Z.
Proof.
  intros Hk Hn.
  destruct (decide (n < k)%Z) as [Hlt|Hge].
  - rewrite Z.shiftl_spec_low by lia.
    rewrite bool_decide_eq_false_2 by lia. by rewrite andb_false_r.
  - rewrite Z.shiftl_spec by lia. rewrite Z.land_spec.
    rewrite Z.shiftr_spec by lia. replace (n - k + k)%Z with n by lia.
    change 255%Z with (Z.ones 8). rewrite Z.testbit_ones_nonneg by lia.
    f_equal. destruct (decide (n - k < 8)%Z).
    + rewrite bool_decide_eq_true_2 by lia. lia.
    + rewrite bool_decide_eq_false_2 by lia. lia.
Qed.

Lemma Uint32_le_PutUint32 (v : Z) :
  (0 ≤ v < 2 ^ 32)%Z → Uint32_le (PutUint32 LittleEndian v) = v.
Proof.
  intros Hv. unfold PutUint32, Uint32_le.
  rewrite <- (Z.shiftl_0_r (Z.land v 255)), <- (Z.shiftr_0_r v) at 1.
  apply Z.bits_inj'. intros n Hn.
  rewrite !Z.lor_spec, !byte_bit by lia.
  destruct (decide (n < 32)%Z) as [Hlt|Hge].
  - destruct (Z.testbit v n); [|reflexivity]. simpl.
    destruct (decide (n < 8)%Z); [by rewrite bool_decide_eq_true_2 by lia|].
    rewrite (bool_decide_eq_false_2 (0 ≤ n < 0 + 8)%Z) by lia.
    destruct (decide (n < 16)%Z); [by rewrite bool_decide_eq_true_2 by lia|].
    rewrite (bool_decide_eq_false_2 (8 ≤ n < 8 + 8)%Z) by lia.
    destruct (decide (n < 24)%Z); [by rewrite bool_decide_eq_true_2 by lia|].
    rewrite (bool_decide_eq_false_2 (16 ≤ n < 16 + 8)%Z) by lia.
    by rewrite bool_decide_eq_true_2 by lia.
  - rewrite <- (Z.mod_small v (2 ^ 32)) by lia.
    rewrite Z.mod_pow2_bits_high by lia. reflexivity.
Qed.

(** ** Facts about the concrete builders *)

Lemma builder_state_only_account : builder_state only_account.
Proof. by apply slots_builder_state. Qed.

Lemma builder_state_with_signers (n : nat) : builder_state (with_signers n).
Proof. by apply slots_builder_state. Qed.

Lemma with_signers_set (n : nat) (s : slot) : slot_set (with_signers n) s.
Proof. destruct s; eexists; reflexivity. Qed.

(** ** Instances and counterexamples *)

(** C1 at a builder that holds one signer, after two more setter calls. *)
Lemma GetAccounts_fixed_then_appended_witness :
  builder_state (with_signers 1) ∧
  ∃ inst account mint authority,
    run [CallSetAuthorityAccount "Au" ["S1"; "S2"]; CallSetAccount "B"]
      (with_signers 1) = Ret inst ∧
    builder_state inst ∧
    GetAccount inst = Ret account ∧
    GetMintAccount inst = Ret mint ∧
    GetAuthorityAccount inst = Ret authority ∧
    Signers inst = Signers (with_signers 1) ++ signer_refs ["S1"; "S2"] ∧
    GetAccounts inst = [account; mint; authority] ++ Signers inst ∧
    length (GetAccounts inst) = 3 + length (Signers inst).
Proof.
  split; [apply builder_state_with_signers|].
  apply (GetAccounts_fixed_then_appended string (with_signers 1)
           [CallSetAuthorityAccount "Au" ["S1"; "S2"]; CallSetAccount "B"]).
  apply builder_state_with_signers.
Defined.

(** C3 as stated fails: with the account set and the mint and authority
    unset, the authority is unset and the error names the mint only. *)
Lemma Validate_names_each_unset_slot_counterexample :
  builder_state only_account ∧
  slot_unset only_account SlotAuthority ∧
  Validate only_account = Ret (Some "accounts.Mint is not set") ∧
  names_slot "accounts.Mint is not set" SlotAuthority = false ∧
  ¬ (∀ (inst : ThawAccount string) (s : slot),
       builder_state inst → slot_unset inst s →
       ∃ e, Validate inst = Ret (Some e) ∧ names_slot e s = true).
Proof.
  split; [apply builder_state_only_account|].
  split; [reflexivity|]. split; [reflexivity|]. split; [reflexivity|].
  intros Hclaim.
  destruct (Hclaim only_account SlotAuthority builder_state_only_account eq_refl)
    as (e & Hv & Hn).
  vm_compute in Hv. inversion Hv; subst e. vm_compute in Hn. discriminate.
Qed.

(** C3 (amended) at a builder with the mint unset, and at one with no signer. *)
Lemma Validate_missing_account_or_signer_witness :
  (builder_state only_account ∧ slot_unset only_account SlotMint ∧
   Validate only_account = Ret (Some "accounts.Mint is not set")) ∧
  (builder_state (with_signers 0) ∧
   Validate (with_signers 0) = Ret (Some "accounts.Signers is not set")).
Proof.
  split.
  - split; [apply builder_state_only_account|]. split; [reflexivity|].
    apply (proj1 (Validate_missing_account_or_signer string only_account
                    builder_state_only_account) SlotMint).
    + reflexivity.
    + intros [] Hlt; simpl in Hlt; try lia. eexists; reflexivity.
  - split; [apply builder_state_with_signers|].
    apply (proj2 (proj2 (Validate_missing_account_or_signer string (with_signers 0)
                    (builder_state_with_signers 0)))).
    + apply with_signers_set.
    + intros meta Hmeta. vm_compute in Hmeta. inversion Hmeta. reflexivity.
    + reflexivity.
Defined.

(** C4 at twelve signers and at eleven. *)
Lemma Validate_too_many_signers_witness :
  (builder_state (with_signers 12) ∧
   Validate (with_signers 12) =
     Ret (Some "too many signers; got 12, but max is 11")) ∧
  (builder_state (with_signers 11) ∧ Validate (with_signers 11) = Ret None).
Proof.
  split.
  - split; [apply builder_state_with_signers|].
    apply (proj1 (proj2 (Validate_too_many_signers string (with_signers 12)
             (builder_state_with_signers 12) (with_signers_set 12)))).
    vm_compute. lia.
  - split; [apply builder_state_with_signers|].
    apply (proj1 (proj2 (proj2 (Validate_too_many_signers string (with_signers 11)
             (builder_state_with_signers 11) (with_signers_set 11))))).
    reflexivity.
Defined.

(** C5 as stated fails: on a builder that already holds one signer, the call
    with two multisig signers gives an account list of length 6. *)
Lemma SetAuthorityAccount_length_five_counterexample :
  builder_state (with_signers 1) ∧
  SetAuthorityAccount "Au" ["S1"; "S2"] (with_signers 1) =
    Ret {| Accounts :=
             [ref "A" true false; ref "M" false false; ref "Au" false false];
           Signers := [ref "S" false true; ref "S1" false true; ref "S2" false true] |} ∧
  ¬ (∀ (inst inst' : ThawAccount string) (Au S1 S2 : string),
       builder_state inst →
       SetAuthorityAccount Au [S1; S2] inst = Ret inst' →
       length (GetAccounts inst') = 5).
Proof.
  split; [apply builder_state_with_signers|]. split; [reflexivity|].
  intros Hclaim.
  specialize (Hclaim (with_signers 1) _ "Au" "S1" "S2"
                (builder_state_with_signers 1) eq_refl).
  vm_compute in Hclaim. discriminate.
Qed.

(** C5 (amended) on the fresh builder with two multisig signers. *)
Lemma SetAuthorityAccount_marks_and_appends_witness :
  builder_state (@NewThawAccountInstructionBuilder string) ∧
  ∃ inst',
    SetAuthorityAccount "Au" ["S1"; "S2"] NewThawAccountInstructionBuilder =
      Ret inst' ∧
    GetAuthorityAccount inst' = Ret (ref "Au" false false) ∧
    Signers inst' = [ref "S1" false true; ref "S2" false true] ∧
    length (GetAccounts inst') = 5.
Proof.
  split; [constructor|].
  destruct (SetAuthorityAccount_marks_and_appends string
              NewThawAccountInstructionBuilder "Au" ["S1"; "S2"]
              builder_new)
    as (inst' & Hset & _ & _ & _ & Hauth & _ & Hsig & _ & _ & _ & Hfive).
  exists inst'. split; [exact Hset|].
  split; [apply Hauth; discriminate|].
  split; [exact Hsig|]. apply Hfive; reflexivity.
Defined.

(** C6 as stated fails: a second [SetAuthorityAccount] with the same multisig
    signer appends that signer again. *)
Lemma SetAuthorityAccount_repeated_counterexample :
  builder_state (@NewThawAccountInstructionBuilder string) ∧
  SetAuthorityAccount "Au" ["S1"] NewThawAccountInstructionBuilder =
    Ret {| Accounts := [None; None; ref "Au" false false];
           Signers := [ref "S1" false true] |} ∧
  SetAuthorityAccount "Au" ["S1"]
    {| Accounts := [None; None; ref "Au" false false];
       Signers := [ref "S1" false true] |} =
    Ret {| Accounts := [None; None; ref "Au" false false];
           Signers := [ref "S1" false true; ref "S1" false true] |} ∧
  ¬ (∀ (inst inst1 : ThawAccount string) (authority : string)
       (multisigSigners : list string),
       builder_state inst →
       SetAuthorityAccount authority multisigSigners inst = Ret inst1 →
       SetAuthorityAccount authority multisigSigners inst1 = Ret inst1).
Proof.
  split; [constructor|]. split; [reflexivity|]. split; [reflexivity|].
  intros Hclaim.
  specialize (Hclaim NewThawAccountInstructionBuilder _ "Au" ["S1"]
                builder_new eq_refl).
  vm_compute in Hclaim. discriminate.
Qed.

(** C6 (amended) on the builder with only the account set. *)
Lemma setters_overwrite_and_repeat_witness :
  builder_state only_account ∧
  (∃ inst1, SetAccount "B" only_account = Ret inst1 ∧
            SetAccount "B" inst1 = Ret inst1) ∧
  (∃ inst1 inst2,
     SetAuthorityAccount "Au" ["S1"] only_account = Ret inst1 ∧
     SetAuthorityAccount "Au" ["S1"] inst1 = Ret inst2 ∧
     Signers inst2 = [ref "S1" false true; ref "S1" false true]).
Proof.
  split; [apply builder_state_only_account|].
  destruct (setters_overwrite_and_repeat string only_account
              builder_state_only_account) as (Hacc & _ & _ & Hauth).
  split.
  - destruct (Hacc "B") as (inst1 & H1 & _ & _ & H2). by exists inst1.
  - destruct (Hauth "Au" ["S1"]) as (inst1 & inst2 & H1 & _ & Hs1 & H2 & _ & Hs2 & _);
      [discriminate|].
    exists inst1, inst2. split; [exact H1|]. split; [exact H2|].
    rewrite Hs2, Hs1. reflexivity.
Defined.

(** C7 as stated fails: on the fresh builder all three slots are unset and
    the error names the account slot only. *)
Lemma Validate_enumerates_unset_slots_counterexample :
  builder_state (@NewThawAccountInstructionBuilder string) ∧
  slot_unset (@NewThawAccountInstructionBuilder string) SlotAccount ∧
  slot_unset (@NewThawAccountInstructionBuilder string) SlotMint ∧
  slot_unset (@NewThawAccountInstructionBuilder string) SlotAuthority ∧
  Validate (@NewThawAccountInstructionBuilder string) =
    Ret (Some "accounts.Account is not set") ∧
  names_slot "accounts.Account is not set" SlotMint = false ∧
  names_slot "accounts.Account is not set" SlotAuthority = false ∧
  ¬ (∀ (inst : ThawAccount string) (s1 s2 : slot),
       builder_state inst → slot_unset inst s1 → slot_unset inst s2 → s1 ≠ s2 →
       ∃ e, Validate inst = Ret (Some e) ∧
            ∀ s, slot_unset inst s → names_slot e s = true).
Proof.
  split; [constructor|]. do 6 (split; [reflexivity|]).
  intros Hclaim.
  destruct (Hclaim NewThawAccountInstructionBuilder SlotAccount SlotMint
              builder_new eq_refl eq_refl) as (e & Hv & Hall);
    [discriminate|].
  vm_compute in Hv. inversion Hv; subst e.
  specialize (Hall SlotMint eq_refl). vm_compute in Hall. discriminate.
Qed.

(** C7 (amended) on the builder with the mint and the authority unset. *)
Lemma Validate_reports_first_unset_slot_only_witness :
  builder_state only_account ∧
  slot_unset only_account SlotMint ∧ slot_unset only_account SlotAuthority ∧
  ∃ s, Validate only_account = Ret (Some (not_set_error s)) ∧
       names_slot (not_set_error s) SlotAuthority = false.
Proof.
  split; [apply builder_state_only_account|].
  split; [reflexivity|]. split; [reflexivity|].
  destruct (Validate_reports_first_unset_slot_only string only_account
              SlotMint SlotAuthority builder_state_only_account eq_refl eq_refl)
    as (s & _ & _ & Hv & _ & _ & Hn); [simpl; lia|].
  by exists s.
Defined.

(** C8 at a builder that validates and at one that does not. *)
Lemma ValidateAndBuild_validates_then_builds_witness :
  (builder_state (with_signers 2) ∧
   ValidateAndBuild 11 (with_signers 2) =
     Ret (Some (Build 11 (with_signers 2)), None)) ∧
  (builder_state only_account ∧
   ValidateAndBuild 11 only_account =
     Ret (None, Some "accounts.Mint is not set")).
Proof.
  split.
  - split; [apply builder_state_with_signers|].
    apply (proj1 (proj2 (proj2 (ValidateAndBuild_validates_then_builds string 11
             (with_signers 2) (builder_state_with_signers 2))))).
    reflexivity.
  - split; [apply builder_state_only_account|].
    apply (proj1 (proj2 (ValidateAndBuild_validates_then_builds string 11
             only_account builder_state_only_account))).
    reflexivity.
Defined.

(** C9 at a list of four references. *)
Lemma SetAccounts_GetAccounts_roundtrip_witness :
  3 ≤ length [ref "A" true false; ref "M" false false; None; ref "S1" false true] ∧
  ∃ obj',
    SetAccounts [ref "A" true false; ref "M" false false; None; ref "S1" false true]
      only_account = Ret (obj', None) ∧
    Accounts obj' = [ref "A" true false; ref "M" false false; None] ∧
    Signers obj' = [ref "S1" false true] ∧
    GetAccounts obj' =
      [ref "A" true false; ref "M" false false; None; ref "S1" false true].
Proof.
  split; [simpl; lia|].
  destruct (SetAccounts_GetAccounts_roundtrip string
              [ref "A" true false; ref "M" false false; None; ref "S1" false true]
              only_account) as (obj' & Hset & Hacc & Hsig & _ & _ & _ & _ & Hget);
    [simpl; lia|].
  exists obj'. split; [exact Hset|]. split; [exact Hacc|].
  split; [exact Hsig|]. exact Hget.
Defined.

(** * Further properties of the builder *)

Section MoreProperties.

Variable PublicKey : Type.
Variable Instruction_ThawAccount : Z.

Lemma Validate_three (a b c : option (AccountMeta PublicKey))
    (rest signers : AccountMetaSlice PublicKey) :
  Validate {| Accounts := a :: b :: c :: rest; Signers := signers |} =
  Ret (validate_checks a b c signers).
Proof.
  destruct a as [ma|], b as [mb|], c as [mc|]; try reflexivity.
  unfold Validate.
  cbn [load Accounts Signers lookup list_lookup mbind outcome_bind].
  rewrite !bool_decide_eq_false_2 by done. cbn [deref mbind outcome_bind].
  unfold validate_checks.
  by destruct (negb (IsSigner mc) && (length signers =? 0)),
       (MAX_SIGNERS <? length signers).
Qed.

Lemma at_least_three_slots {A : Type} (l : list A) :
  3 ≤ length l → ∃ a b c rest, l = a :: b :: c :: rest.
Proof.
  destruct l as [|a [|b [|c rest]]]; simpl; intros Hlen; try lia.
  by exists a, b, c, rest.
Qed.

Lemma load_returns {A : Type} (l : list A) (i : nat) :
  returns (load l i) ↔ i < length l.
Proof.
  unfold returns, load. split.
  - intros [x Hx]. destruct (l !! i) eqn:Hl; [|discriminate].
    by apply lookup_lt_Some in Hl.
  - intros Hi. destruct (lookup_lt_is_Some_2 l i Hi) as [x Hx].
    rewrite Hx. by exists x.
Qed.

Lemma load_out_of_range {A : Type} (l : list A) (i : nat) :
  length l ≤ i → load l i = Panic (IndexOutOfRange i (length l)).
Proof. intros Hi. unfold load. by rewrite lookup_ge_None_2. Qed.

Lemma store_returns {A : Type} (l : list A) (i : nat) (v : A) :
  returns (store l i v) ↔ i < length l.
Proof.
  unfold returns, store. destruct (decide (i < length l)) as [Hi|Hi].
  - split; [done|]. intros _. by eexists.
  - split; [intros [x Hx]; discriminate|done].
Qed.

Lemma store_out_of_range {A : Type} (l : list A) (i : nat) (v : A) :
  length l ≤ i → store l i v = Panic (IndexOutOfRange i (length l)).
Proof. intros Hi. unfold store. rewrite decide_False; [done|lia]. Qed.

Lemma bind_returns {A B : Type} (m : outcome A) (f : A → outcome B) :
  returns (m ≫= f) → returns m.
Proof. destruct m as [a|p]; [by exists a|]. intros [b Hb]. discriminate. Qed.

(** ** Bounds of the slot accessors *)

(** X1. Each setter and getter of a fixed slot returns exactly when the
    builder holds a slot at its index (0 for the account, 1 for the mint, 2
    for the authority); on a shorter slot list, such as that of a zero-value
    [ThawAccount], it panics with the index and the length. *)
Theorem slot_access_bounds (inst : ThawAccount PublicKey) :
  let n := length (Accounts inst) in
  (∀ account,
     (returns (SetAccount account inst) ↔ 0 < n) ∧
     (n ≤ 0 → SetAccount account inst = Panic (IndexOutOfRange 0 n))) ∧
  (∀ mint,
     (returns (SetMintAccount mint inst) ↔ 1 < n) ∧
     (n ≤ 1 → SetMintAccount mint inst = Panic (IndexOutOfRange 1 n))) ∧
  (∀ authority multisigSigners,
     (returns (SetAuthorityAccount authority multisigSigners inst) ↔ 2 < n) ∧
     (n ≤ 2 → SetAuthorityAccount authority multisigSigners inst =
              Panic (IndexOutOfRange 2 n))) ∧
  ((returns (GetAccount inst) ↔ 0 < n) ∧
   (n ≤ 0 → GetAccount inst = Panic (IndexOutOfRange 0 n))) ∧
  ((returns (GetMintAccount inst) ↔ 1 < n) ∧
   (n ≤ 1 → GetMintAccount inst = Panic (IndexOutOfRange 1 n))) ∧
  ((returns (GetAuthorityAccount inst) ↔ 2 < n) ∧
   (n ≤ 2 → GetAuthorityAccount inst = Panic (IndexOutOfRange 2 n))).
Proof.
  intros n. subst n. destruct inst as [accs signers]. cbn [Accounts Signers].
  repeat split; try (intros H; by apply load_out_of_range);
    try (apply load_returns).
  - intros H. unfold SetAccount in H. cbn [Accounts] in H.
    apply bind_returns in H. by apply store_returns in H.
  - intros H. unfold SetAccount. cbn [Accounts].
    rewrite store_in_range by done. by eexists.
  - intros H. unfold SetAccount. cbn [Accounts].
    by rewrite store_out_of_range.
  - intros H. unfold SetMintAccount in H. cbn [Accounts] in H.
    apply bind_returns in H. by apply store_returns in H.
  - intros H. unfold SetMintAccount. cbn [Accounts].
    rewrite store_in_range by done. by eexists.
  - intros H. unfold SetMintAccount. cbn [Accounts].
    by rewrite store_out_of_range.
  - intros H. unfold SetAuthorityAccount in H. cbn [Accounts] in H.
    apply bind_returns in H. by apply store_returns in H.
  - intros H. destruct (at_least_three_slots accs) as (a & b & c & rest & ->);
      [lia|].
    unfold SetAuthorityAccount. cbn [Accounts].
    rewrite store_in_range by (simpl; lia). cbn.
    destruct (length multisigSigners =? 0); cbn; by eexists.
  - intros H. unfold SetAuthorityAccount. cbn [Accounts].
    by rewrite store_out_of_range.
Qed.

Lemma SetAccount_cons (account : PublicKey) (a : option (AccountMeta PublicKey))
    (rest signers : AccountMetaSlice PublicKey) :
  SetAccount account {| Accounts := a :: rest; Signers := signers |} =
  Ret {| Accounts := Some (WRITE (Meta account)) :: rest; Signers := signers |}.
Proof.
  unfold SetAccount. cbn [Accounts Signers].
  rewrite store_in_range by (simpl; lia). reflexivity.
Qed.

Lemma SetMintAccount_cons (mint : PublicKey)
    (a b : option (AccountMeta PublicKey))
    (rest signers : AccountMetaSlice PublicKey) :
  SetMintAccount mint {| Accounts := a :: b :: rest; Signers := signers |} =
  Ret {| Accounts := a :: Some (Meta mint) :: rest; Signers := signers |}.
Proof.
  unfold SetMintAccount. cbn [Accounts Signers].
  rewrite store_in_range by (simpl; lia). reflexivity.
Qed.

Lemma SetAuthorityAccount_cons (authority : PublicKey)
    (multisigSigners : list PublicKey) (a b c : option (AccountMeta PublicKey))
    (rest signers : AccountMetaSlice PublicKey) :
  SetAuthorityAccount authority multisigSigners
    {| Accounts := a :: b :: c :: rest; Signers := signers |} =
  Ret {| Accounts :=
           a :: b ::
           Some {| meta_PublicKey := authority;
                   IsWritable := false;
                   IsSigner := bool_decide (multisigSigners = []) |} :: rest;
         Signers := signers ++ signer_refs multisigSigners |}.
Proof.
  unfold SetAuthorityAccount. rewrite append_loop. cbn [Accounts Signers].
  rewrite store_in_range by (simpl; lia). cbn [mbind outcome_bind].
  destruct multisigSigners as [|s ss].
  - cbn [length Nat.eqb]. cbn [insert list_insert].
    unfold load. cbn [lookup list_lookup mbind outcome_bind deref].
    rewrite store_in_range by (simpl; lia). reflexivity.
  - reflexivity.
Qed.

(** X2. On a builder with at least three slots every setter returns, its
    getter then reads back the reference it wrote (the account writable, the
    mint with both flags off, the authority a signer exactly when no multisig
    signer was given), and the other two getters, the number of slots and,
    for the account and mint setters, the signer list are as before. *)
Theorem getters_read_setters (inst : ThawAccount PublicKey) :
  3 ≤ length (Accounts inst) →
  (∀ account, ∃ inst',
     SetAccount account inst = Ret inst' ∧
     GetAccount inst' =
       Ret (Some {| meta_PublicKey := account;
                    IsWritable := true; IsSigner := false |}) ∧
     GetMintAccount inst' = GetMintAccount inst ∧
     GetAuthorityAccount inst' = GetAuthorityAccount inst ∧
     length (Accounts inst') = length (Accounts inst) ∧
     Signers inst' = Signers inst) ∧
  (∀ mint, ∃ inst',
     SetMintAccount mint inst = Ret inst' ∧
     GetMintAccount inst' =
       Ret (Some {| meta_PublicKey := mint;
                    IsWritable := false; IsSigner := false |}) ∧
     GetAccount inst' = GetAccount inst ∧
     GetAuthorityAccount inst' = GetAuthorityAccount inst ∧
     length (Accounts inst') = length (Accounts inst) ∧
     Signers inst' = Signers inst) ∧
  (∀ authority multisigSigners, ∃ inst',
     SetAuthorityAccount authority multisigSigners inst = Ret inst' ∧
     GetAuthorityAccount inst' =
       Ret (Some {| meta_PublicKey := authority;
                    IsWritable := false;
                    IsSigner := bool_decide (multisigSigners = []) |}) ∧
     GetAccount inst' = GetAccount inst ∧
     GetMintAccount inst' = GetMintAccount inst ∧
     length (Accounts inst') = length (Accounts inst)).
Proof.
  intros Hlen. destruct inst as [accs signers]. cbn [Accounts] in Hlen.
  destruct (at_least_three_slots accs Hlen) as (a & b & c & rest & ->).
  split; [|split].
  - intros account. eexists. split; [apply SetAccount_cons|]. repeat split.
  - intros mint. eexists. split; [apply SetMintAccount_cons|]. repeat split.
  - intros authority multisigSigners. eexists.
    split; [apply SetAuthorityAccount_cons|]. repeat split.
Qed.

(** ** What [Validate] checks *)

(** X3. On any [ThawAccount], whatever the number of its slots, a nil slot
    with every slot before it set makes [Validate] return the error naming
    it; and with fewer than three slots, none of them nil, [Validate] panics
    with the index just past the last slot. *)
Theorem Validate_short_slot_list (inst : ThawAccount PublicKey) :
  (∀ s, slot_unset inst s →
        (∀ s', slot_index s' < slot_index s → slot_set inst s') →
        Validate inst = Ret (Some (not_set_error s))) ∧
  (length (Accounts inst) < 3 →
   Forall (λ p, p ≠ None) (Accounts inst) →
   Validate inst =
     Panic (IndexOutOfRange (length (Accounts inst)) (length (Accounts inst)))).
Proof.
  destruct inst as [accs signers]. split.
  - intros s Hs Hbefore. unfold slot_unset, slot_set in *. cbn [Accounts] in *.
    pose proof (Hbefore SlotAccount) as H0.
    pose proof (Hbefore SlotMint) as H1. clear Hbefore.
    destruct s; simpl in Hs, H0, H1.
    + destruct accs as [|a rest]; [discriminate|].
      inversion Hs; subst. reflexivity.
    + destruct H0 as [m0 H0]; [lia|].
      destruct accs as [|a [|b rest]]; try discriminate.
      inversion H0; inversion Hs; subst. reflexivity.
    + destruct H0 as [m0 H0]; [lia|]. destruct H1 as [m1 H1]; [lia|].
      destruct accs as [|a [|b [|c rest]]]; try discriminate.
      inversion H0; inversion H1; inversion Hs; subst. reflexivity.
  - cbn [Accounts]. intros Hlen Hall.
    destruct accs as [|[ma|] [|[mb|] [|c rest]]]; simpl in Hlen; try lia;
      try reflexivity; exfalso;
      repeat match goal with
             | H : Forall _ (_ :: _) |- _ => inversion H; clear H; subst
             end; done.
Qed.

(** X4. [Validate] returns nil exactly when the first three slots are all
    set, the authority is marked signer or the signer list is not empty, and
    the signer list holds at most [MAX_SIGNERS] entries; in every other case
    it returns an error or panics. *)
Theorem Validate_succeeds_iff (inst : ThawAccount PublicKey) :
  Validate inst = Ret None ↔
  ∃ account mint authority,
    Accounts inst !! 0 = Some (Some account) ∧
    Accounts inst !! 1 = Some (Some mint) ∧
    Accounts inst !! 2 = Some (Some authority) ∧
    (IsSigner authority = true ∨ Signers inst ≠ []) ∧
    length (Signers inst) ≤ MAX_SIGNERS.
Proof.
  destruct inst as [accs signers]. cbn [Accounts Signers].
  destruct accs as [|a [|b [|c rest]]].
  - split; [discriminate|]. intros (? & ? & ? & H & _). discriminate.
  - split.
    + destruct a; discriminate.
    + intros (? & ? & ? & _ & H & _). discriminate.
  - split.
    + destruct a, b; discriminate.
    + intros (? & ? & ? & _ & _ & H & _). discriminate.
  - rewrite Validate_three. unfold validate_checks. split.
    + destruct a as [ma|], b as [mb|], c as [mc|]; try discriminate.
      intros H. exists ma, mb, mc. do 3 (split; [reflexivity|]).
      destruct (IsSigner mc) eqn:Hsig; simpl in H.
      * split; [by left|].
        destruct (Nat.ltb_spec MAX_SIGNERS (length signers)); [discriminate|lia].
      * destruct signers as [|s signers]; [discriminate|]. simpl in H.
        split; [by right|].
        destruct (Nat.ltb_spec MAX_SIGNERS (S (length signers)));
          [discriminate|simpl; lia].
    + intros (ma & mb & mc & Ha & Hb & Hc & Hsig & Hlen).
      simpl in Ha, Hb, Hc. inversion Ha; inversion Hb; inversion Hc; subst.
      replace (negb (IsSigner mc) && (length signers =? 0)) with false.
      * destruct (Nat.ltb_spec MAX_SIGNERS (length signers)); [lia|done].
      * destruct Hsig as [->|Hne]; [done|].
        destruct signers; [done|]. simpl. by rewrite andb_false_r.
Qed.

Lemma Validate_by_view :
  ∃ f, ∀ inst : ThawAccount PublicKey, Validate inst = f (validation_view inst).
Proof.
  exists (λ view,
    match view with
    | (nils, signer, n) =>
        match nils with
        | [] => Panic (IndexOutOfRange 0 0)
        | true :: _ => Ret (Some (not_set_error SlotAccount))
        | [false] => Panic (IndexOutOfRange 1 1)
        | false :: true :: _ => Ret (Some (not_set_error SlotMint))
        | [false; false] => Panic (IndexOutOfRange 2 2)
        | false :: false :: true :: _ => Ret (Some (not_set_error SlotAuthority))
        | false :: false :: false :: _ =>
            Ret (if negb signer && (n =? 0)
                 then Some signers_not_set_error
                 else if MAX_SIGNERS <? n
                 then Some (too_many_signers_error n)
                 else None)
        end
    end).
  intros [accs signers]. unfold validation_view. cbn [Accounts Signers].
  destruct accs as [|[ma|] [|[mb|] [|[mc|] rest]]]; try reflexivity.
  rewrite Validate_three. reflexivity.
Qed.

(** X5. [Validate] reads nothing of a builder but which of its first three
    slots are nil, the signer flag of the authority and the number of signer
    entries: two builders that agree on these get the same result, whatever
    their addresses, their writable flags, the flags of account and mint, and
    the entries of their signer lists. *)
Theorem Validate_reads_view_only (inst inst' : ThawAccount PublicKey) :
  validation_view inst = validation_view inst' →
  Validate inst = Validate inst'.
Proof.
  intros Hview. destruct Validate_by_view as [f Hf].
  by rewrite (Hf inst), (Hf inst'), Hview.
Qed.

(** ** What sequences of setter calls keep *)

Lemma signer_refs_flags (signers : list PublicKey) :
  Forall (λ p : option (AccountMeta PublicKey),
            ∃ meta, p = Some meta ∧
                    IsWritable meta = false ∧ IsSigner meta = true)
    (signer_refs signers).
Proof.
  unfold signer_refs. apply Forall_map, Forall_true. intros signer.
  eexists. repeat split.
Qed.

Lemma step_flags (c : call PublicKey) (a b c0 : option (AccountMeta PublicKey))
    (signers : AccountMetaSlice PublicKey) :
  flags_as_documented {| Accounts := [a; b; c0]; Signers := signers |} →
  ∃ a' b' c' signers',
    step c {| Accounts := [a; b; c0]; Signers := signers |} =
      Ret {| Accounts := [a'; b'; c']; Signers := signers' |} ∧
    flags_as_documented {| Accounts := [a'; b'; c']; Signers := signers' |}.
Proof.
  intros (Ha & Hb & Hc & Hs). cbn [Accounts Signers] in *.
  assert (Hslot : ∀ (P : AccountMeta PublicKey → Prop) x i,
            (∀ meta, [a; b; c0] !! i = Some (Some meta) → P meta) →
            (∀ meta, x = Some meta → P meta) →
            ∀ meta, <[i:=x]> [a; b; c0] !! i = Some (Some meta) → P meta).
  { intros P x i _ Hx meta Hm.
    destruct (decide (i < 3)) as [Hi|Hi].
    - rewrite list_lookup_insert_eq in Hm by exact Hi.
      apply Hx. by injection Hm.
    - rewrite lookup_ge_None_2 in Hm; [discriminate|].
      rewrite length_insert. simpl. lia. }
  destruct c as [account|mint|authority multisigSigners]; cbn [step].
  - rewrite SetAccount_slots. eexists _, _, _, _. split; [reflexivity|].
    unfold flags_as_documented. cbn [Accounts Signers].
    split; [|split; [exact Hb|split; [exact Hc|exact Hs]]].
    apply (Hslot _ _ 0 Ha). intros meta [= <-]. done.
  - rewrite SetMintAccount_slots. eexists _, _, _, _. split; [reflexivity|].
    unfold flags_as_documented. cbn [Accounts Signers].
    split; [exact Ha|]. split; [|split; [exact Hc|exact Hs]].
    apply (Hslot _ _ 1 Hb). intros meta [= <-]. done.
  - rewrite SetAuthorityAccount_slots. eexists _, _, _, _.
    split; [reflexivity|].
    unfold flags_as_documented. cbn [Accounts Signers].
    split; [exact Ha|]. split; [exact Hb|]. split.
    + apply (Hslot _ _ 2 Hc). intros meta [= <-]. done.
    + apply Forall_app. split; [exact Hs|apply signer_refs_flags].
Qed.

Lemma run_flags (calls : list (call PublicKey))
    (a b c : option (AccountMeta PublicKey))
    (signers : AccountMetaSlice PublicKey) :
  flags_as_documented {| Accounts := [a; b; c]; Signers := signers |} →
  ∃ a' b' c' signers',
    run calls {| Accounts := [a; b; c]; Signers := signers |} =
      Ret {| Accounts := [a'; b'; c']; Signers := signers' |} ∧
    flags_as_documented {| Accounts := [a'; b'; c']; Signers := signers' |}.
Proof.
  revert a b c signers.
  induction calls as [|c1 calls IH]; intros a b c signers Hflags.
  - by exists a, b, c, signers.
  - destruct (step_flags c1 a b c signers Hflags)
      as (a1 & b1 & c1' & signers1 & Hstep & Hflags1).
    destruct (IH a1 b1 c1' signers1 Hflags1)
      as (a2 & b2 & c2 & signers2 & Hrun & Hflags2).
    exists a2, b2, c2, signers2. split; [|done].
    cbn [run]. rewrite Hstep. cbn [mbind outcome_bind]. exact Hrun.
Qed.

(** X6. Whatever setters are called on a fresh builder, and in whatever
    order, the builder keeps three slots and the flags documented on the
    [Accounts] field: a set account slot is writable and not signer, a set
    mint slot has both flags off, a set authority slot is not writable, and
    every signer entry is a non-nil, non-writable signer reference. *)
Theorem setters_keep_documented_flags (calls : list (call PublicKey)) :
  ∃ inst,
    run calls NewThawAccountInstructionBuilder = Ret inst ∧
    length (Accounts inst) = 3 ∧
    flags_as_documented inst.
Proof.
  destruct (run_flags calls None None None []) as
    (a & b & c & signers & Hrun & Hflags).
  - repeat split; try done; cbn; intros meta; discriminate.
  - eexists. split; [exact Hrun|]. split; [reflexivity|exact Hflags].
Qed.

(** X7. No setter removes a signer, so a builder that holds more than
    [MAX_SIGNERS] signers cannot be made valid by further setter calls: after
    any such calls [Validate] returns an error, and with the three slots set
    that error is the too-many-signers error. *)
Theorem too_many_signers_is_permanent (inst0 : ThawAccount PublicKey)
    (calls : list (call PublicKey)) :
  builder_state inst0 →
  MAX_SIGNERS < length (Signers inst0) →
  ∃ inst e,
    run calls inst0 = Ret inst ∧
    length (Signers inst0) ≤ length (Signers inst) ∧
    Validate inst = Ret (Some e) ∧
    ((∀ s, slot_set inst s) →
     e = too_many_signers_error (length (Signers inst))).
Proof.
  intros Hb Hmany.
  destruct (builder_state_inv _ _ Hb) as (a & b & c & signers & ->).
  destruct (run_slots _ calls a b c signers) as (a' & b' & c' & Hrun).
  cbn [Signers] in *.
  set (signers' := signers ++ signer_refs (appended calls)) in *.
  assert (Hlen : length signers ≤ length signers').
  { unfold signers'. rewrite length_app. lia. }
  assert (Hnz : (length signers' =? 0) = false) by (apply Nat.eqb_neq; lia).
  assert (Hgt : (MAX_SIGNERS <? length signers') = true)
    by (apply Nat.ltb_lt; lia).
  exists {| Accounts := [a'; b'; c']; Signers := signers' |}.
  rewrite Validate_slots. cbn [Signers].
  destruct a' as [ma|], b' as [mb|], c' as [mc|];
    try (eexists; split; [exact Hrun|]; split; [exact Hlen|];
         split; [reflexivity|]; intros Hset;
         first [ destruct (Hset SlotAccount) as [? Hs]; discriminate
               | destruct (Hset SlotMint) as [? Hs]; discriminate
               | destruct (Hset SlotAuthority) as [? Hs]; discriminate ]).
  rewrite Hnz, andb_false_r, Hgt.
  eexists. split; [exact Hrun|]. split; [exact Hlen|]. split; reflexivity.
Qed.

(** ** How the setters compose *)

(** X8. On a builder state the three setters do not interfere with each
    other: calling two different setters in either order gives the same
    builder, so the builder after [SetAuthorityAccount], [SetMintAccount] and
    [SetAccount] in that order is the one [NewThawAccountInstruction] makes. *)
Theorem different_setters_commute (inst : ThawAccount PublicKey)
    (account mint authority : PublicKey) (multisigSigners : list PublicKey) :
  builder_state inst →
  (i ← SetAccount account inst; SetMintAccount mint i) =
    (i ← SetMintAccount mint inst; SetAccount account i) ∧
  (i ← SetAccount account inst; SetAuthorityAccount authority multisigSigners i) =
    (i ← SetAuthorityAccount authority multisigSigners inst;
     SetAccount account i) ∧
  (i ← SetMintAccount mint inst;
   SetAuthorityAccount authority multisigSigners i) =
    (i ← SetAuthorityAccount authority multisigSigners inst;
     SetMintAccount mint i) ∧
  (i ← SetAuthorityAccount authority multisigSigners
         NewThawAccountInstructionBuilder;
   i ← SetMintAccount mint i;
   SetAccount account i) =
    NewThawAccountInstruction account mint authority multisigSigners.
Proof.
  intros Hb.
  destruct (builder_state_inv _ _ Hb) as (a & b & c & signers & ->).
  unfold NewThawAccountInstruction.
  change (@NewThawAccountInstructionBuilder PublicKey)
    with {| Accounts := [@None (AccountMeta PublicKey); None; None];
            Signers := [] |}.
  repeat (rewrite ?SetAccount_slots, ?SetMintAccount_slots,
            ?SetAuthorityAccount_slots; cbn [mbind outcome_bind]).
  repeat split.
Qed.

(** X9. On a builder state a second call of the same setter overwrites what
    the first wrote: for the account and the mint the first call leaves no
    trace; for the authority the address and the signer flag are those of the
    second call alone, while the multisig signers of both calls stay in the
    signer list, first call first. *)
Theorem same_setter_last_write_wins (inst : ThawAccount PublicKey) :
  builder_state inst →
  (∀ account1 account2,
     (i ← SetAccount account1 inst; SetAccount account2 i) =
     SetAccount account2 inst) ∧
  (∀ mint1 mint2,
     (i ← SetMintAccount mint1 inst; SetMintAccount mint2 i) =
     SetMintAccount mint2 inst) ∧
  (∀ authority1 signers1 authority2 signers2, ∃ inst2,
     (i ← SetAuthorityAccount authority1 signers1 inst;
      SetAuthorityAccount authority2 signers2 i) = Ret inst2 ∧
     GetAuthorityAccount inst2 =
       Ret (Some {| meta_PublicKey := authority2;
                    IsWritable := false;
                    IsSigner := bool_decide (signers2 = []) |}) ∧
     GetAccount inst2 = GetAccount inst ∧
     GetMintAccount inst2 = GetMintAccount inst ∧
     Signers inst2 =
       Signers inst ++ signer_refs signers1 ++ signer_refs signers2).
Proof.
  intros Hb.
  destruct (builder_state_inv _ _ Hb) as (a & b & c & signers & ->).
  split; [|split].
  - intros account1 account2.
    rewrite !SetAccount_slots. cbn [mbind outcome_bind].
    by rewrite SetAccount_slots.
  - intros mint1 mint2.
    rewrite !SetMintAccount_slots. cbn [mbind outcome_bind].
    by rewrite SetMintAccount_slots.
  - intros authority1 signers1 authority2 signers2.
    rewrite SetAuthorityAccount_slots. cbn [mbind outcome_bind].
    rewrite SetAuthorityAccount_slots. eexists. split; [reflexivity|].
    cbn [Signers]. rewrite <- app_assoc. repeat split.
Qed.

(** ** What a built instruction holds *)

Lemma validate_checks_None (a b c : option (AccountMeta PublicKey))
    (signers : AccountMetaSlice PublicKey) :
  validate_checks a b c signers = None →
  ∃ account mint authority,
    a = Some account ∧ b = Some mint ∧ c = Some authority ∧
    (IsSigner authority = true ∨ signers ≠ []) ∧
    length signers ≤ MAX_SIGNERS.
Proof.
  unfold validate_checks.
  destruct a as [ma|], b as [mb|], c as [mc|]; try discriminate.
  intros H. exists ma, mb, mc. do 3 (split; [reflexivity|]).
  destruct (IsSigner mc) eqn:Hsig; simpl in H.
  - split; [by left|].
    destruct (Nat.ltb_spec MAX_SIGNERS (length signers)); [discriminate|lia].
  - destruct signers as [|s signers]; [discriminate|]. simpl in H.
    split; [by right|].
    destruct (Nat.ltb_spec MAX_SIGNERS (S (length signers)));
      [discriminate|simpl; lia].
Qed.

(** X10. When [ValidateAndBuild] returns an instruction, the error is nil,
    the instruction is that of [Build], and its account list starts with three
    non-nil references, of which the authority is a signer unless a signer
    entry follows, and holds at most [MAX_SIGNERS] signer entries: between 3
    and 14 accounts in all for a builder with three slots. *)
Theorem ValidateAndBuild_instruction_accounts (inst : ThawAccount PublicKey)
    (instruction : Instruction PublicKey) (err : error) :
  ValidateAndBuild Instruction_ThawAccount inst = Ret (Some instruction, err) →
  err = None ∧
  instruction = Build Instruction_ThawAccount inst ∧
  (∃ account mint authority,
     take 3 (GetAccounts (Impl (Variant instruction))) =
       [Some account; Some mint; Some authority] ∧
     (IsSigner authority = true ∨ Signers inst ≠ [])) ∧
  length (Signers inst) ≤ MAX_SIGNERS ∧
  (length (Accounts inst) = 3 →
   3 ≤ length (GetAccounts (Impl (Variant instruction))) ≤ 3 + MAX_SIGNERS).
Proof.
  destruct inst as [accs signers]. unfold ValidateAndBuild.
  destruct accs as [|a [|b [|c rest]]].
  - discriminate.
  - destruct a; discriminate.
  - destruct a, b; discriminate.
  - rewrite Validate_three. cbn [mbind outcome_bind].
    destruct (validate_checks a b c signers) as [e|] eqn:Hchecks;
      [discriminate|].
    intros [= <-  <-]. split; [reflexivity|]. split; [reflexivity|].
    destruct (validate_checks_None _ _ _ _ Hchecks)
      as (ma & mb & mc & -> & -> & -> & Hsig & Hlen).
    cbn [Build Variant Impl Signers Accounts GetAccounts].
    split; [by exists ma, mb, mc|]. split; [exact Hlen|].
    intros Hthree. simpl in Hthree. destruct rest; [|simpl in Hthree; lia].
    simpl. lia.
Qed.

(** X11. On a builder with three slots [SetAccounts] undoes [GetAccounts]:
    handing the account list of the builder to [SetAccounts], on any
    [ThawAccount], returns that builder again, with a nil error. *)
Theorem SetAccounts_of_GetAccounts (inst obj : ThawAccount PublicKey) :
  length (Accounts inst) = 3 →
  SetAccounts (GetAccounts inst) obj = Ret (inst, None).
Proof.
  intros Hlen. destruct inst as [accs signers]. cbn [Accounts] in Hlen.
  destruct (three_slots accs Hlen) as (a & b & c & ->).
  unfold SetAccounts, SplitFrom, GetAccounts. cbn [Accounts Signers].
  rewrite decide_True by (simpl; lia). reflexivity.
Qed.

(** X12. For a discriminant in the range of [uint32] the type id [Build]
    gives the instruction is eight bytes long, each byte between 0 and 255;
    its first four bytes read as a little-endian [uint32] are the ThawAccount
    discriminant and its last four bytes are zero. *)
Theorem Build_TypeID_little_endian (inst : ThawAccount PublicKey) :
  (0 ≤ Instruction_ThawAccount < 2 ^ 32)%Z →
  let id := TypeID (Variant (Build Instruction_ThawAccount inst)) in
  length id = TypeSize ∧
  Uint32_le id = Instruction_ThawAccount ∧
  drop 4 id = [0; 0; 0; 0]%Z ∧
  Forall (λ b, (0 ≤ b < 256)%Z) id.
Proof.
  intros Hrange id. subst id. cbn [Build Variant TypeID].
  unfold TypeIDFromUint32. split; [reflexivity|]. split; [|split].
  - rewrite <- (Uint32_le_PutUint32 Instruction_ThawAccount Hrange) at 2.
    reflexivity.
  - reflexivity.
  - assert (Hbyte : ∀ x, (0 ≤ Z.land x 255 < 256)%Z).
    { intros x. change 255%Z with (Z.ones 8). rewrite Z.land_ones by lia.
      apply Z.mod_pos_bound. lia. }
    cbn [PutUint32 TypeSize Nat.sub replicate app].
    repeat (apply Forall_cons; split; [first [apply Hbyte|lia]|]).
    apply Forall_nil_2.
Qed.

(** ** The debugging tree *)

Variable ProgramName : string.
Variable ProgramID : PublicKey.
Variable ag_format_Program : string → PublicKey → string.
Variable ag_format_Instruction : string → string.
Variable ag_format_Meta : string → option (AccountMeta PublicKey) → string.

Lemma encode_signers_items (signers : AccountMetaSlice PublicKey) (i : nat)
    (text : string) (items : list Branches) :
  encode_signers ag_format_Meta i signers (Branch text items) =
  Ret (Branch text
         (items ++
          imap (λ j v,
                  Branch (ag_format_Meta
                            ("signers[" +:+ format_int (i + j) +:+ "]") v) [])
            signers)).
Proof.
  revert i items. induction signers as [|v signers IH]; intros i items.
  - cbn. by rewrite app_nil_r.
  - cbn [encode_signers]. unfold Child at 1. cbn [mbind outcome_bind Text Items].
    rewrite IH. rewrite <- app_assoc. cbn [app imap].
    rewrite Nat.add_0_r. do 4 f_equal.
    apply imap_ext. intros j x _. cbn. by rewrite Nat.add_succ_r.
Qed.


(** ** Slices that share their backing arrays *)

Variable growslice : nat → nat.

Lemma backing_alter_eq (mem : memory PublicKey) (a : nat)
    (f : list (option (AccountMeta PublicKey)) → list (option (AccountMeta PublicKey))) :
  a < length mem → backing (alter f a mem) a = f (backing mem a).
Proof.
  intros Ha. unfold backing. rewrite list_lookup_alter_eq.
  destruct (lookup_lt_is_Some_2 mem a Ha) as [l Hl]. by rewrite Hl.
Qed.

Lemma backing_alter_ne (mem : memory PublicKey) (a a' : nat)
    (f : list (option (AccountMeta PublicKey)) → list (option (AccountMeta PublicKey))) :
  a ≠ a' → backing (alter f a' mem) a = backing mem a.
Proof.
  intros Hne. unfold backing. by rewrite list_lookup_alter_ne.
Qed.

Lemma backing_app_old (mem : memory PublicKey) (a : nat)
    (new : list (option (AccountMeta PublicKey))) :
  a < length mem → backing (mem ++ [new]) a = backing mem a.
Proof. intros Ha. unfold backing. by rewrite lookup_app_l. Qed.

Lemma backing_app_new (mem : memory PublicKey)
    (new : list (option (AccountMeta PublicKey))) :
  backing (mem ++ [new]) (length mem) = new.
Proof. unfold backing. by rewrite list_lookup_middle. Qed.

(** Writing a slot: the slots change at that index, the signers and every
    frozen header keep their elements. *)
Lemma index_store_slot (mem : memory PublicKey) (inst : ThawAccount_mem)
    (i : nat) (v : option (AccountMeta PublicKey)) :
  allocated mem inst → i < 3 →
  ∃ mem',
    index_store mem (Accounts_mem inst) i v = Ret mem' ∧
    allocated mem' inst ∧
    elements mem' (Accounts_mem inst) = <[i:=v]> (elements mem (Accounts_mem inst)) ∧
    elements mem' (Signers_mem inst) = elements mem (Signers_mem inst) ∧
    ∀ s E, frozen mem inst s E → frozen mem' inst s E.
Proof.
  intros (Ha & Hlen & Hback & Hs & Hne & Hcap & Hsback) Hi.
  eexists. split.
  { unfold index_store. rewrite decide_True by lia. reflexivity. }
  split; [|split; [|split]].
  - unfold allocated. rewrite length_alter, backing_alter_eq by done.
    rewrite backing_alter_ne by done. rewrite length_insert. done.
  - unfold elements. rewrite backing_alter_eq by done.
    rewrite take_insert_lt by lia. done.
  - unfold elements. by rewrite backing_alter_ne.
  - intros s E (Hsa & Hsl & HE & Hsb & Hcur).
    unfold frozen, elements. rewrite length_alter.
    rewrite backing_alter_ne by done. done.
Qed.

(** Appending a signer: the signer elements grow by one at the end, the
    slots and every frozen header keep their elements. *)
Lemma append_mem_signer (mem : memory PublicKey) (accounts signers : slice)
    (v : option (AccountMeta PublicKey)) :
  allocated mem {| Accounts_mem := accounts; Signers_mem := signers |} →
  ∃ mem' signers',
    append_mem growslice mem signers v = (mem', signers') ∧
    allocated mem' {| Accounts_mem := accounts; Signers_mem := signers' |} ∧
    elements mem' accounts = elements mem accounts ∧
    elements mem' signers' = elements mem signers ++ [v] ∧
    ∀ s E,
      frozen mem {| Accounts_mem := accounts; Signers_mem := signers |} s E →
      frozen mem' {| Accounts_mem := accounts; Signers_mem := signers' |} s E.
Proof.
  intros (Ha & Hlen & Hback & Hs & Hne & Hcap & Hsback).
  cbn [Accounts_mem Signers_mem] in *.
  unfold append_mem. destruct (decide (len signers < cap signers)) as [Hin|Hout].
  - eexists _, _. split; [reflexivity|]. split; [|split; [|split]].
    + unfold allocated. cbn [Accounts_mem Signers_mem array len cap].
      rewrite length_alter, backing_alter_eq by done.
      rewrite backing_alter_ne by done. rewrite length_insert.
      repeat split; try done; lia.
    + unfold elements. by rewrite backing_alter_ne.
    + unfold elements. cbn [array len]. rewrite backing_alter_eq by done.
      assert (Hl : len signers < length (backing mem (array signers))) by lia.
      destruct (lookup_lt_is_Some_2 _ _ Hl) as [x Hx].
      rewrite (take_S_r _ _ v).
      * by rewrite take_insert_ge.
      * by apply list_lookup_insert_eq.
    + intros s E (Hsa & Hsl & HE & Hsb & Hcur).
      cbn [Accounts_mem Signers_mem array len] in *.
      unfold frozen, elements. cbn [Accounts_mem Signers_mem array len].
      rewrite length_alter.
      destruct (decide (array s = array signers)) as [Heq|Hneq].
      * rewrite Heq, backing_alter_eq by done. rewrite length_insert.
        rewrite take_insert_ge by (apply Hcur; exact Heq).
        rewrite <- Heq. repeat split; try done.
        intros _. specialize (Hcur Heq). lia.
      * rewrite backing_alter_ne by done. repeat split; try done.
  - eexists _, _. split; [reflexivity|]. split; [|split; [|split]].
    + unfold allocated. cbn [Accounts_mem Signers_mem array len cap].
      rewrite length_app, backing_app_new, backing_app_old by done.
      rewrite length_app. cbn [length]. rewrite length_replicate.
      unfold elements. rewrite length_take.
      repeat split; try lia.
    + unfold elements. by rewrite backing_app_old.
    + unfold elements at 1. cbn [array len]. rewrite backing_app_new.
      assert (Hl : length (elements mem signers) = len signers).
      { unfold elements. rewrite length_take. lia. }
      rewrite (cons_middle v), app_assoc.
      apply take_app_length'. rewrite length_app, Hl. simpl. lia.
    + intros s E (Hsa & Hsl & HE & Hsb & Hcur).
      cbn [Accounts_mem Signers_mem array len] in *.
      unfold frozen, elements. cbn [Accounts_mem Signers_mem array len].
      rewrite length_app, backing_app_old by done.
      repeat split; try done; try lia.
Qed.

Lemma append_loop_mem (multisigSigners : list PublicKey)
    (mem : memory PublicKey) (accounts signers : slice) :
  allocated mem {| Accounts_mem := accounts; Signers_mem := signers |} →
  ∃ mem' signers',
    fold_left (λ '(mem, signers) signer,
                 append_mem growslice mem signers (Some (SIGNER (Meta signer))))
      multisigSigners (mem, signers) = (mem', signers') ∧
    allocated mem' {| Accounts_mem := accounts; Signers_mem := signers' |} ∧
    elements mem' accounts = elements mem accounts ∧
    elements mem' signers' = elements mem signers ++ signer_refs multisigSigners ∧
    ∀ s E,
      frozen mem {| Accounts_mem := accounts; Signers_mem := signers |} s E →
      frozen mem' {| Accounts_mem := accounts; Signers_mem := signers' |} s E.
Proof.
  revert mem signers.
  induction multisigSigners as [|signer rest IH]; intros mem signers Halloc.
  - exists mem, signers. cbn. rewrite app_nil_r. done.
  - destruct (append_mem_signer mem accounts signers
                (Some (SIGNER (Meta signer))) Halloc)
      as (mem1 & signers1 & Happ & Halloc1 & Hacc1 & Hsig1 & Hfrozen1).
    destruct (IH mem1 signers1 Halloc1)
      as (mem2 & signers2 & Hfold & Halloc2 & Hacc2 & Hsig2 & Hfrozen2).
    exists mem2, signers2. cbn [fold_left]. rewrite Happ.
    split; [exact Hfold|]. split; [exact Halloc2|].
    split; [by rewrite Hacc2|]. split.
    + rewrite Hsig2, Hsig1, <- app_assoc. reflexivity.
    + intros s E Hf. by apply Hfrozen2, Hfrozen1.
Qed.

(** A setter call in memory does to the contents what the call does to the
    builder; it leaves the slot header as it was and every frozen header
    with its elements. *)
Lemma step_mem_contents (c : call PublicKey) (mem : memory PublicKey)
    (inst : ThawAccount_mem) :
  allocated mem inst →
  ∃ mem' inst',
    step_mem growslice c (mem, inst) = Ret (mem', inst') ∧
    allocated mem' inst' ∧
    step c (contents mem inst) = Ret (contents mem' inst') ∧
    Accounts_mem inst' = Accounts_mem inst ∧
    ∀ s E, frozen mem inst s E → frozen mem' inst' s E.
Proof.
  intros Halloc.
  assert (Hthree : ∃ a b c0, elements mem (Accounts_mem inst) = [a; b; c0]).
  { apply three_slots. destruct Halloc as (_ & Hlen & Hback & _).
    unfold elements. rewrite length_take. lia. }
  destruct Hthree as (a & b & c0 & Hslots).
  destruct inst as [accounts signers]. cbn [Accounts_mem Signers_mem] in *.
  unfold contents. cbn [Accounts_mem Signers_mem]. rewrite Hslots.
  destruct c as [account|mint|authority multisigSigners];
    cbn [step step_mem].
  - destruct (index_store_slot mem _ 0 (Some (WRITE (Meta account))) Halloc)
      as (mem' & Hstore & Halloc' & Hacc & Hsig & Hfrozen); [lia|].
    cbn [Accounts_mem Signers_mem] in *.
    exists mem', {| Accounts_mem := accounts; Signers_mem := signers |}.
    unfold SetAccount_mem. cbn [Accounts_mem]. rewrite Hstore.
    split; [reflexivity|]. split; [exact Halloc'|]. split; [|by split].
    rewrite SetAccount_slots. cbn [Accounts_mem Signers_mem].
    rewrite Hacc, Hsig, Hslots. reflexivity.
  - destruct (index_store_slot mem _ 1 (Some (Meta mint)) Halloc)
      as (mem' & Hstore & Halloc' & Hacc & Hsig & Hfrozen); [lia|].
    cbn [Accounts_mem Signers_mem] in *.
    exists mem', {| Accounts_mem := accounts; Signers_mem := signers |}.
    unfold SetMintAccount_mem. cbn [Accounts_mem]. rewrite Hstore.
    split; [reflexivity|]. split; [exact Halloc'|]. split; [|by split].
    rewrite SetMintAccount_slots. cbn [Accounts_mem Signers_mem].
    rewrite Hacc, Hsig, Hslots. reflexivity.
  - rewrite SetAuthorityAccount_slots.
    destruct (index_store_slot mem _ 2 (Some (Meta authority)) Halloc)
      as (mem1 & Hstore1 & Halloc1 & Hacc1 & Hsig1 & Hfrozen1); [lia|].
    cbn [Accounts_mem Signers_mem] in *. rewrite Hslots in Hacc1.
    cbn [insert list_insert] in Hacc1.
    assert (Hflag : ∃ mem2,
      (if length multisigSigners =? 0 then
         p ← index_load mem1 accounts 2;
         meta ← deref p;
         index_store mem1 accounts 2 (Some (SIGNER meta))
       else Ret mem1) = Ret mem2 ∧
      allocated mem2 {| Accounts_mem := accounts; Signers_mem := signers |} ∧
      elements mem2 accounts =
        [a; b; Some {| meta_PublicKey := authority;
                       IsWritable := false;
                       IsSigner := bool_decide (multisigSigners = []) |}] ∧
      elements mem2 signers = elements mem1 signers ∧
      ∀ s E,
        frozen mem1 {| Accounts_mem := accounts; Signers_mem := signers |} s E →
        frozen mem2 {| Accounts_mem := accounts; Signers_mem := signers |} s E).
    { destruct multisigSigners as [|s0 ss]; cbn [length Nat.eqb].
      - assert (Hload : index_load mem1 accounts 2 = Ret (Some (Meta authority))).
        { destruct Halloc1 as (_ & Hlen & _). cbn [Accounts_mem] in Hlen.
          unfold index_load. rewrite decide_True by lia.
          apply load_in_range.
          assert (Hl : elements mem1 accounts !! 2 = Some (Some (Meta authority)))
            by (by rewrite Hacc1).
          unfold elements in Hl. rewrite lookup_take_lt in Hl by lia. exact Hl. }
        rewrite Hload. cbn [mbind outcome_bind deref].
        destruct (index_store_slot mem1 _ 2
                    (Some (SIGNER (Meta authority))) Halloc1)
          as (mem2 & Hstore2 & Halloc2 & Hacc2 & Hsig2 & Hfrozen2); [lia|].
        cbn [Accounts_mem Signers_mem] in *.
        exists mem2. split; [exact Hstore2|]. split; [exact Halloc2|].
        split; [by rewrite Hacc2, Hacc1|]. split; [exact Hsig2|exact Hfrozen2].
      - exists mem1. split; [reflexivity|]. split; [exact Halloc1|].
        split; [exact Hacc1|]. split; [reflexivity|]. by intros. }
    destruct Hflag as (mem2 & Hflag & Halloc2 & Hacc2 & Hsig2 & Hfrozen2).
    destruct (append_loop_mem multisigSigners mem2 accounts signers Halloc2)
      as (mem3 & signers3 & Hfold & Halloc3 & Hacc3 & Hsig3 & Hfrozen3).
    exists mem3, {| Accounts_mem := accounts; Signers_mem := signers3 |}.
    unfold SetAuthorityAccount_mem. cbn [Accounts_mem Signers_mem].
    rewrite Hstore1. cbn [mbind outcome_bind]. rewrite Hflag.
    cbn [mbind outcome_bind]. rewrite Hfold.
    split; [reflexivity|]. split; [exact Halloc3|]. split; [|split].
    + rewrite Hacc3, Hacc2, Hsig3, Hsig2, Hsig1. reflexivity.
    + reflexivity.
    + intros s E Hf. by apply Hfrozen3, Hfrozen2, Hfrozen1.
Qed.

Lemma run_mem_contents (calls : list (call PublicKey)) (mem : memory PublicKey)
    (inst : ThawAccount_mem) :
  allocated mem inst →
  ∃ mem' inst',
    run_mem growslice calls (mem, inst) = Ret (mem', inst') ∧
    allocated mem' inst' ∧
    run calls (contents mem inst) = Ret (contents mem' inst') ∧
    Accounts_mem inst' = Accounts_mem inst ∧
    ∀ s E, frozen mem inst s E → frozen mem' inst' s E.
Proof.
  revert mem inst. induction calls as [|c calls IH]; intros mem inst Halloc.
  - exists mem, inst. split; [reflexivity|]. split; [exact Halloc|].
    split; [reflexivity|]. split; [reflexivity|]. by intros.
  - destruct (step_mem_contents c mem inst Halloc)
      as (mem1 & inst1 & Hstep & Halloc1 & Hval1 & Hacc1 & Hfrozen1).
    destruct (IH mem1 inst1 Halloc1)
      as (mem2 & inst2 & Hrun & Halloc2 & Hval2 & Hacc2 & Hfrozen2).
    exists mem2, inst2. cbn [run_mem run]. rewrite Hstep, Hval1.
    cbn [mbind outcome_bind].
    split; [exact Hrun|]. split; [exact Halloc2|]. split; [exact Hval2|].
    split; [by rewrite Hacc2|]. intros s E Hf. by apply Hfrozen2, Hfrozen1.
Qed.

Lemma New_mem_allocated (mem : memory PublicKey) :
  ∃ mem' inst,
    NewThawAccountInstructionBuilder_mem mem = (mem', inst) ∧
    allocated mem' inst ∧
    contents mem' inst = NewThawAccountInstructionBuilder.
Proof.
  eexists _, _. split; [reflexivity|]. split.
  - unfold allocated. cbn [Accounts_mem Signers_mem array len cap].
    rewrite !length_app. cbn [length].
    rewrite backing_app_old by (rewrite length_app; simpl; lia).
    rewrite backing_app_new.
    replace (length mem + 1) with (length (mem ++ [replicate 3 None]))
      by (rewrite length_app; simpl; lia).
    rewrite backing_app_new. rewrite length_app. simpl. repeat split; lia.
  - unfold contents, elements. cbn [Accounts_mem Signers_mem array len].
    rewrite backing_app_old by (rewrite length_app; simpl; lia).
    rewrite backing_app_new. reflexivity.
Qed.

Lemma allocated_frozen_signers (mem : memory PublicKey) (inst : ThawAccount_mem) :
  allocated mem inst →
  frozen mem inst (Signers_mem inst) (elements mem (Signers_mem inst)).
Proof.
  intros (Ha & Hlen & Hback & Hs & Hne & Hcap & Hsback).
  unfold frozen. repeat split; try done; lia.
Qed.

(** The headers copied at some point of a builder's life, after further
    setter calls. *)
Lemma copy_after_calls (calls : list (call PublicKey)) (mem1 : memory PublicKey)
    (builder1 : ThawAccount_mem) :
  allocated mem1 builder1 →
  ∃ mem2 builder2,
    run_mem growslice calls (mem1, builder1) = Ret (mem2, builder2) ∧
    run calls (contents mem1 builder1) = Ret (contents mem2 builder2) ∧
    Accounts (contents mem2 builder1) = Accounts (contents mem2 builder2) ∧
    Signers (contents mem2 builder1) = Signers (contents mem1 builder1).
Proof.
  intros Halloc.
  destruct (run_mem_contents calls mem1 builder1 Halloc)
    as (mem2 & builder2 & Hrun & _ & Hval & Hacc & Hfrozen).
  exists mem2, builder2. split; [exact Hrun|]. split; [exact Hval|].
  unfold contents. cbn [Accounts Signers]. split; [by rewrite Hacc|].
  by destruct (Hfrozen _ _ (allocated_frozen_signers mem1 builder1 Halloc))
    as (_ & _ & HE & _).
Qed.

(** X14. [Build] copies the two slice headers of the builder, not the
    arrays behind them. Whatever setters are called before and after [Build],
    in any memory and for any growth policy of [append], the instruction read
    after the later calls has the fixed slots the builder has then, and the
    signer entries the builder had when [Build] was called. *)
Theorem Build_shares_slots_not_signers (mem0 : memory PublicKey)
    (calls1 calls2 : list (call PublicKey)) :
  ∃ mem1 builder1 mem2 builder2,
    run_mem growslice calls1 (NewThawAccountInstructionBuilder_mem mem0) =
      Ret (mem1, builder1) ∧
    run_mem growslice calls2 (mem1, builder1) = Ret (mem2, builder2) ∧
    run calls1 NewThawAccountInstructionBuilder = Ret (contents mem1 builder1) ∧
    run calls2 (contents mem1 builder1) = Ret (contents mem2 builder2) ∧
    let instruction := Build_mem Instruction_ThawAccount builder1 in
    contents mem1 (Impl_mem instruction) = contents mem1 builder1 ∧
    Accounts (contents mem2 (Impl_mem instruction)) =
      Accounts (contents mem2 builder2) ∧
    Signers (contents mem2 (Impl_mem instruction)) =
      Signers (contents mem1 builder1) ∧
    GetAccounts (contents mem2 (Impl_mem instruction)) =
      Accounts (contents mem2 builder2) ++ Signers (contents mem1 builder1).
Proof.
  destruct (New_mem_allocated mem0) as (memN & instN & HN & HallocN & HvalN).
  destruct (run_mem_contents calls1 memN instN HallocN)
    as (mem1 & builder1 & Hrun1 & Halloc1 & Hval1 & _ & _).
  destruct (copy_after_calls calls2 mem1 builder1 Halloc1)
    as (mem2 & builder2 & Hrun2 & Hval2 & Hacc & Hsig).
  exists mem1, builder1, mem2, builder2.
  rewrite HN. split; [exact Hrun1|]. split; [exact Hrun2|].
  split; [by rewrite <- HvalN|]. split; [exact Hval2|].
  cbn [Build_mem Impl_mem]. split; [reflexivity|].
  split; [exact Hacc|]. split; [exact Hsig|].
  unfold GetAccounts. by rewrite app_nil_l, Hacc, Hsig.
Qed.

(** X15. A built instruction is not sealed against its builder. Build the
    instruction of a fresh builder with account, mint and a single signing
    authority: it validates. Call [SetAuthorityAccount] with a multisig signer
    on the builder afterwards: the instruction now holds the authority as a
    non-signer and still no signer entry, and [Validate] on it returns the
    missing-signer error. *)
Theorem built_instruction_follows_builder (mem0 : memory PublicKey)
    (A M Au Au' S : PublicKey) :
  ∃ mem1 builder1 mem2 builder2,
    run_mem growslice
      [CallSetAccount A; CallSetMintAccount M; CallSetAuthorityAccount Au []]
      (NewThawAccountInstructionBuilder_mem mem0) = Ret (mem1, builder1) ∧
    run_mem growslice [CallSetAuthorityAccount Au' [S]] (mem1, builder1) =
      Ret (mem2, builder2) ∧
    let instruction := Build_mem Instruction_ThawAccount builder1 in
    Validate (contents mem1 (Impl_mem instruction)) = Ret None ∧
    GetAccounts (contents mem2 (Impl_mem instruction)) =
      [Some {| meta_PublicKey := A; IsWritable := true; IsSigner := false |};
       Some {| meta_PublicKey := M; IsWritable := false; IsSigner := false |};
       Some {| meta_PublicKey := Au'; IsWritable := false; IsSigner := false |}] ∧
    Validate (contents mem2 (Impl_mem instruction)) =
      Ret (Some signers_not_set_error).
Proof.
  destruct (New_mem_allocated mem0) as (memN & instN & HN & HallocN & HvalN).
  destruct (run_mem_contents
              [CallSetAccount A; CallSetMintAccount M;
               CallSetAuthorityAccount Au []] memN instN HallocN)
    as (mem1 & builder1 & Hrun1 & Halloc1 & Hval1 & _ & _).
  destruct (copy_after_calls [CallSetAuthorityAccount Au' [S]]
              mem1 builder1 Halloc1)
    as (mem2 & builder2 & Hrun2 & Hval2 & Hacc & Hsig).
  exists mem1, builder1, mem2, builder2.
  rewrite HN. split; [exact Hrun1|]. split; [exact Hrun2|].
  cbn [Build_mem Impl_mem].
  rewrite HvalN in Hval1.
  assert (Hbuilt : contents mem1 builder1 =
            {| Accounts :=
                 [Some {| meta_PublicKey := A; IsWritable := true;
                          IsSigner := false |};
                  Some {| meta_PublicKey := M; IsWritable := false;
                          IsSigner := false |};
                  Some {| meta_PublicKey := Au; IsWritable := false;
                          IsSigner := true |}];
               Signers := [] |}).
  { assert (Hinj : ∀ x y : ThawAccount PublicKey, Ret x = Ret y → y = x)
      by (by intros x y [= ->]).
    apply Hinj. exact Hval1. }
  rewrite Hbuilt in *.
  assert (Hlater : contents mem2 builder2 =
            {| Accounts :=
                 [Some {| meta_PublicKey := A; IsWritable := true;
                          IsSigner := false |};
                  Some {| meta_PublicKey := M; IsWritable := false;
                          IsSigner := false |};
                  Some {| meta_PublicKey := Au'; IsWritable := false;
                          IsSigner := false |}];
               Signers := signer_refs [S] |}).
  { assert (Hinj : ∀ x y : ThawAccount PublicKey, Ret x = Ret y → y = x)
      by (by intros x y [= ->]).
    apply Hinj. exact Hval2. }
  assert (Hcopy : contents mem2 builder1 =
            {| Accounts :=
                 [Some {| meta_PublicKey := A; IsWritable := true;
                          IsSigner := false |};
                  Some {| meta_PublicKey := M; IsWritable := false;
                          IsSigner := false |};
                  Some {| meta_PublicKey := Au'; IsWritable := false;
                          IsSigner := false |}];
               Signers := [] |}).
  { destruct (contents mem2 builder1) as [accs sigs].
    cbn [Accounts Signers] in Hacc, Hsig. rewrite Hacc, Hsig, Hlater.
    reflexivity. }
  split; [reflexivity|]. rewrite Hcopy. split; reflexivity.
Qed.

Lemma New_mem_keeps (mem : memory PublicKey) (other : ThawAccount_mem) :
  allocated mem other →
  ∃ mem' inst,
    NewThawAccountInstructionBuilder_mem mem = (mem', inst) ∧
    allocated mem' inst ∧
    contents mem' inst = NewThawAccountInstructionBuilder ∧
    frozen mem' inst (Accounts_mem other) (elements mem (Accounts_mem other)) ∧
    frozen mem' inst (Signers_mem other) (elements mem (Signers_mem other)).
Proof.
  intros (Ha & Hlen & Hback & Hs & Hne & Hcap & Hsback).
  destruct (New_mem_allocated mem) as (mem' & inst & HN & Halloc & Hval).
  exists mem', inst. split; [exact HN|]. split; [exact Halloc|].
  split; [exact Hval|].
  unfold NewThawAccountInstructionBuilder_mem, make in HN.
  injection HN as <- <-.
  unfold frozen, elements. cbn [Accounts_mem Signers_mem array len].
  rewrite !length_app. cbn [length].
  rewrite !backing_app_old by (rewrite ?length_app; simpl; lia).
  repeat split; try lia.
Qed.

(** X16. Two builders made by the constructor share no array: whatever
    setters are called on the second, the first keeps the slots and the
    signers it had when the second was made. *)
Theorem builders_do_not_interfere (mem0 : memory PublicKey)
    (calls1 calls2 : list (call PublicKey)) :
  ∃ mem1 first mem2 second mem3 second',
    run_mem growslice calls1 (NewThawAccountInstructionBuilder_mem mem0) =
      Ret (mem1, first) ∧
    NewThawAccountInstructionBuilder_mem mem1 = (mem2, second) ∧
    run_mem growslice calls2 (mem2, second) = Ret (mem3, second') ∧
    run calls2 NewThawAccountInstructionBuilder = Ret (contents mem3 second') ∧
    contents mem3 first = contents mem1 first ∧
    run calls1 NewThawAccountInstructionBuilder = Ret (contents mem3 first).
Proof.
  destruct (New_mem_allocated mem0) as (memN & instN & HN & HallocN & HvalN).
  destruct (run_mem_contents calls1 memN instN HallocN)
    as (mem1 & first & Hrun1 & Halloc1 & Hval1 & _ & _).
  destruct (New_mem_keeps mem1 first Halloc1)
    as (mem2 & second & HN2 & Halloc2 & Hval2 & Hfa & Hfs).
  destruct (run_mem_contents calls2 mem2 second Halloc2)
    as (mem3 & second' & Hrun2 & _ & Hval3 & _ & Hfrozen).
  exists mem1, first, mem2, second, mem3, second'.
  rewrite HN. split; [exact Hrun1|]. split; [exact HN2|].
  split; [exact Hrun2|]. split; [by rewrite <- Hval2|].
  assert (Hsame : contents mem3 first = contents mem1 first).
  { unfold contents.
    destruct (Hfrozen _ _ Hfa) as (_ & _ & -> & _).
    by destruct (Hfrozen _ _ Hfs) as (_ & _ & -> & _). }
  split; [exact Hsame|]. by rewrite Hsame, <- HvalN.
Qed.

End MoreProperties.

(** ** Instances of the further properties *)

(** X1 on the zero value and on a builder with three slots. *)
Lemma slot_access_bounds_witness :
  SetAccount "A" zero_value = Panic (IndexOutOfRange 0 0) ∧
  GetAuthorityAccount zero_value = Panic (IndexOutOfRange 2 0) ∧
  returns (SetMintAccount "M" only_account) ∧
  returns (GetAuthorityAccount only_account).
Proof.
  pose proof (slot_access_bounds string zero_value) as Hzero.
  pose proof (slot_access_bounds string only_account) as Hthree.
  cbv zeta in Hzero, Hthree.
  destruct Hzero as (Hacc & _ & _ & _ & _ & Hgau).
  destruct Hthree as (_ & Hmint & _ & _ & _ & Hgau3).
  split; [apply (proj2 (Hacc "A")); simpl; lia|].
  split; [apply (proj2 Hgau); simpl; lia|].
  split; [apply (proj1 (Hmint "M")); simpl; lia|].
  apply (proj1 Hgau3). simpl. lia.
Defined.

(** X2 on the builder with only the account set. *)
Lemma getters_read_setters_witness :
  3 ≤ length (Accounts only_account) ∧
  ∃ inst',
    SetMintAccount "M" only_account = Ret inst' ∧
    GetMintAccount inst' = Ret (ref "M" false false) ∧
    GetAccount inst' = Ret (ref "A" true false).
Proof.
  split; [simpl; lia|].
  destruct (getters_read_setters string only_account) as (_ & Hmint & _);
    [simpl; lia|].
  destruct (Hmint "M") as (inst' & Hset & Hget & Hacc & _).
  exists inst'. split; [exact Hset|]. split; [exact Hget|].
  rewrite Hacc. reflexivity.
Defined.

(** X3 on a one-slot list that is nil, and on one that is set. *)
Lemma Validate_short_slot_list_witness :
  Validate {| Accounts := [@None (AccountMeta string)]; Signers := [] |} =
    Ret (Some "accounts.Account is not set") ∧
  Validate {| Accounts := [ref "A" true false]; Signers := [] |} =
    Panic (IndexOutOfRange 1 1).
Proof.
  split.
  - apply (proj1 (Validate_short_slot_list string
                    {| Accounts := [None]; Signers := [] |}) SlotAccount).
    + reflexivity.
    + intros s' Hlt. simpl in Hlt. lia.
  - apply (proj2 (Validate_short_slot_list string
                    {| Accounts := [ref "A" true false]; Signers := [] |})).
    + simpl. lia.
    + apply Forall_cons. split; [discriminate|apply Forall_nil_2].
Defined.

(** X4 on a builder with two multisig signers. *)
Lemma Validate_succeeds_iff_witness :
  Validate (with_signers 2) = Ret None.
Proof.
  apply (proj2 (Validate_succeeds_iff string (with_signers 2))).
  eexists _, _, _. do 3 (split; [reflexivity|]).
  split; [right; discriminate|]. vm_compute. lia.
Defined.

(** X5 on two builders that differ in addresses, flags and signer entries. *)
Lemma Validate_reads_view_only_witness :
  validation_view (with_signers 1) = validation_view unchecked_builder ∧
  Validate (with_signers 1) = Validate unchecked_builder.
Proof.
  split; [reflexivity|].
  apply (Validate_reads_view_only string (with_signers 1) unchecked_builder).
  reflexivity.
Defined.

(** X7 on a builder with twelve signers, after a call that marks the
    authority as signer. *)
Lemma too_many_signers_is_permanent_witness :
  builder_state (with_signers 12) ∧
  MAX_SIGNERS < length (Signers (with_signers 12)) ∧
  ∃ inst e,
    run [CallSetAuthorityAccount "Au" []] (with_signers 12) = Ret inst ∧
    Validate inst = Ret (Some e).
Proof.
  split; [apply builder_state_with_signers|]. split; [vm_compute; lia|].
  destruct (too_many_signers_is_permanent string (with_signers 12)
              [CallSetAuthorityAccount "Au" []])
    as (inst & e & Hrun & _ & Hv & _).
  - apply builder_state_with_signers.
  - vm_compute. lia.
  - by exists inst, e.
Defined.

(** X8 on the builder with only the account set. *)
Lemma different_setters_commute_witness :
  builder_state only_account ∧
  (i ← SetMintAccount "M" only_account; SetAuthorityAccount "Au" ["S1"] i) =
  (i ← SetAuthorityAccount "Au" ["S1"] only_account; SetMintAccount "M" i).
Proof.
  split; [apply builder_state_only_account|].
  apply (different_setters_commute string only_account "A" "M" "Au" ["S1"]).
  apply builder_state_only_account.
Defined.

(** X9 on a builder with one signer: a multisig call, then a call without
    signers. *)
Lemma same_setter_last_write_wins_witness :
  builder_state (with_signers 1) ∧
  ∃ inst2,
    (i ← SetAuthorityAccount "Au" ["S1"] (with_signers 1);
     SetAuthorityAccount "Au2" [] i) = Ret inst2 ∧
    GetAuthorityAccount inst2 = Ret (ref "Au2" false true) ∧
    Signers inst2 = [ref "S" false true; ref "S1" false true].
Proof.
  split; [apply builder_state_with_signers|].
  destruct (same_setter_last_write_wins string (with_signers 1)
              (builder_state_with_signers 1)) as (_ & _ & Hauth).
  destruct (Hauth "Au" ["S1"] "Au2" []) as (inst2 & Hrun & Hget & _ & _ & Hsig).
  exists inst2. split; [exact Hrun|]. split; [exact Hget|].
  rewrite Hsig. reflexivity.
Defined.

(** X10 on a builder with two multisig signers. *)
Lemma ValidateAndBuild_instruction_accounts_witness :
  ValidateAndBuild 11 (with_signers 2) =
    Ret (Some (Build 11 (with_signers 2)), None) ∧
  3 ≤ length (GetAccounts (Impl (Variant (Build 11 (with_signers 2))))) ≤
    3 + MAX_SIGNERS.
Proof.
  split; [reflexivity|].
  destruct (ValidateAndBuild_instruction_accounts string 11 (with_signers 2)
              (Build 11 (with_signers 2)) None eq_refl)
    as (_ & _ & _ & _ & Hlen).
  apply Hlen. reflexivity.
Defined.

(** X11 on a builder with two multisig signers. *)
Lemma SetAccounts_of_GetAccounts_witness :
  length (Accounts (with_signers 2)) = 3 ∧
  SetAccounts (GetAccounts (with_signers 2)) zero_value =
    Ret (with_signers 2, None).
Proof.
  split; [reflexivity|].
  apply (SetAccounts_of_GetAccounts string (with_signers 2) zero_value).
  reflexivity.
Defined.

(** X12 for the discriminant 11. *)
Lemma Build_TypeID_little_endian_witness :
  (0 ≤ 11 < 2 ^ 32)%Z ∧
  Uint32_le (TypeID (Variant (Build 11 only_account))) = 11%Z ∧
  TypeID (Variant (Build 11 only_account)) = [11; 0; 0; 0; 0; 0; 0; 0]%Z.
Proof.
  split; [lia|].
  pose proof (Build_TypeID_little_endian string 11 only_account) as H.
  cbv zeta in H. destruct H as (_ & Hle & _); [lia|].
  split; [exact Hle|reflexivity].
Defined.

